(** * Expense tracker: the client store, its month views and the ledger snapshot

    A shallow embedding of
    - [src/lib/store.ts]: the zustand store (categories, transactions and the
      month shown),
    - [src/app/(app)/transactions/page.tsx], [src/app/(app)/dashboard/page.tsx]
      and [src/app/(app)/ask/page.tsx]: the month list, the month summary and
      the transactions sent with a question,
    - [src/components/add-expense-sheet.tsx] and
      [src/components/create-category-dialog.tsx]: what the forms do to the
      store,
    - the parts of the JavaScript runtime and of date-fns that these call,
    - the ledger snapshot (export and import) of the Python backend, whose code
      is not part of the sources and is modelled from the specification.

    Conventions.  A JS [number] that holds an amount is an IEEE 754 double
    ([JSNumber.number], the binary64 instance of [SpecFloat]); a number that
    holds a year, a month or a time value is an integer, with [None] for NaN.
    A string is the [string] of its bytes; what the engine does with letters
    ([toLowerCase]) is left to the host.  A [Date] is its time value, the
    milliseconds since the epoch; the local time of a date is what the host's
    time zone makes of it, daylight saving included.  What an action reads from
    the system clock is given to it as a [Clock]. *)

From stdpp Require Import gmap strings list.
From Stdlib Require Import Ascii ZArith QArith Qcanon Sorted Permutation DecimalString Lia.
From Stdlib Require Import SpecFloat.
From Stdlib Require DecimalZ DecimalPos.

Open Scope Z_scope.

(** ** Numbers: IEEE 754 doubles *)

Module JSNumber.

Definition prec : Z := 53.
Definition emax : Z := 1024.

Definition number : Type := spec_float.

Definition NaN : number := S754_nan.
Definition zero : number := S754_zero false.

(** [x + y], [x - y] and [x / y], rounded to the nearest double. *)
Definition add (x y : number) : number := SFadd prec emax x y.
Definition sub (x y : number) : number := SFsub prec emax x y.
Definition div (x y : number) : number := SFdiv prec emax x y.

(** The double nearest to an integer. *)
Definition ofZ (n : Z) : number := binary_normalize prec emax n 0 false.

(** The decimal literal with the digits of [n] and [k] of them after the
    point: the double nearest to [n / 10^k] (for [n] and [10^k] below 2^53,
    which are doubles themselves). *)
Definition decimal (n : Z) (k : nat) : number := div (ofZ n) (ofZ (10 ^ Z.of_nat k)).

Definition isNaN (x : number) : bool :=
  match x with S754_nan => true | _ => false end.

(** Truthiness of a number: 0, -0 and NaN are falsy. *)
Definition truthy (x : number) : bool :=
  match x with S754_zero _ | S754_nan => false | _ => true end.

(** [x < y]; false when one of them is NaN. *)
Definition ltb (x y : number) : bool := SFltb x y.

(** The sign of a number; [Eq] for 0, -0 and NaN. *)
Definition signOf (x : number) : comparison :=
  match x with
  | S754_zero _ | S754_nan => Eq
  | S754_infinity s | S754_finite s _ _ => if s then Lt else Gt
  end.

End JSNumber.

(** ** The JavaScript runtime *)

Module JS.

(** *** Strings *)

(** Truthiness of a string: only the empty string is falsy. *)
Definition truthy (s : string) : bool :=
  match s with EmptyString => false | _ => true end.

(** [String(n)] of an integer. *)
Definition ofInt (n : Z) : string := NilZero.string_of_int (Z.to_int n).

Definition isDigit (c : ascii) : bool :=
  let n := nat_of_ascii c in (48 <=? n)%nat && (n <=? 57)%nat.

Definition digitVal (c : ascii) : Z := Z.of_nat (nat_of_ascii c) - 48.

(** [Number(s)] for a string of decimal digits; [None] when a byte is not a
    digit. *)
Fixpoint digitsFrom (acc : Z) (s : string) : option Z :=
  match s with
  | EmptyString => Some acc
  | String c r => if isDigit c then digitsFrom (10 * acc + digitVal c) r else None
  end.

Definition digits (s : string) : option Z :=
  match s with EmptyString => None | _ => digitsFrom 0 s end.

(** [String(n).padStart(width, '0')] for [0 <= n]. *)
Definition padStart (width : nat) (n : Z) : string :=
  let s := ofInt n in
  String.concat "" (repeat "0"%string (width - String.length s)) +:+ s.

(** *** Calendar *)

(** The fields of a time: year, month, day of the month and time within the
    day. *)
Record DateTime := mkDateTime {
  dt_year : Z;        (* full year *)
  dt_month : Z;       (* 0 = January .. 11 = December *)
  dt_day : Z;         (* day of the month, from 1 *)
  dt_ms : Z           (* milliseconds since midnight *)
}.

Definition msPerDay : Z := 86400000.
Definition msPerMinute : Z := 60000.
Definition msPerHour : Z := 3600000.

Definition isLeap (y : Z) : bool :=
  (y mod 4 =? 0) && (negb (y mod 100 =? 0) || (y mod 400 =? 0)).

Definition daysInMonth (y m : Z) : Z :=
  if m =? 1 then (if isLeap y then 29 else 28)
  else if (m =? 3) || (m =? 5) || (m =? 8) || (m =? 10) then 30
  else 31.

Definition nextDay (d : DateTime) : DateTime :=
  if dt_day d <? daysInMonth (dt_year d) (dt_month d)
  then mkDateTime (dt_year d) (dt_month d) (dt_day d + 1) (dt_ms d)
  else if dt_month d <? 11
  then mkDateTime (dt_year d) (dt_month d + 1) 1 (dt_ms d)
  else mkDateTime (dt_year d + 1) 0 1 (dt_ms d).

Definition prevDay (d : DateTime) : DateTime :=
  if 1 <? dt_day d
  then mkDateTime (dt_year d) (dt_month d) (dt_day d - 1) (dt_ms d)
  else if 0 <? dt_month d
  then mkDateTime (dt_year d) (dt_month d - 1)
                  (daysInMonth (dt_year d) (dt_month d - 1)) (dt_ms d)
  else mkDateTime (dt_year d - 1) 11 31 (dt_ms d).

Definition addDays (k : Z) (d : DateTime) : DateTime :=
  if 0 <=? k then Nat.iter (Z.to_nat k) nextDay d
  else Nat.iter (Z.to_nat (- k)) prevDay d.

(** YearFromTime, MonthFromTime, DateFromTime and TimeWithinDay of ECMAScript:
    the day [t / msPerDay], counted from 1 January 1970, and the time within
    it. *)
Definition epochDay (ms : Z) : DateTime := mkDateTime 1970 0 1 ms.

Definition fieldsOf (t : Z) : DateTime :=
  addDays (t / msPerDay) (epochDay (t mod msPerDay)).

Arguments fieldsOf : simpl never.

(** Days from 1970-01-01 to the given day of the proleptic Gregorian
    calendar. *)
Definition daysFromCivil (y m d : Z) : Z :=
  let y' := if m <=? 1 then y - 1 else y in
  let era := y' / 400 in
  let yoe := y' - era * 400 in
  let mp := (m + 10) mod 12 in
  let doy := (153 * mp + 2) / 5 + d - 1 in
  let doe := yoe * 365 + yoe / 4 - yoe / 100 + doy in
  era * 146097 + doe - 719468.

(** MakeDay: the day number of the first of the month, a month outside 0..11
    carrying into the year, plus [d - 1]. *)
Definition makeDay (y m d : Z) : Z :=
  let ym := 12 * y + m in
  daysFromCivil (ym / 12) (ym mod 12) 1 + d - 1.

(** MakeTime and MakeDate. *)
Definition makeTime (h mi s ms : Z) : Z :=
  h * msPerHour + mi * msPerMinute + s * 1000 + ms.

Definition makeDate (day time : Z) : Z := day * msPerDay + time.

(** *** Dates, and what the host decides *)

(** A [Date]: its time value, or NaN. *)
Inductive Date := InvalidDate | ValidDate (t : Z).

Class Host := {
  (* LocalTZA(t, isUTC) of ECMAScript, in milliseconds: the offset of local
     time from UTC at the time value [t] (isUTC) or at the local time [t] (not
     isUTC; a local time that a transition skips or repeats is read with the
     offset before the transition) *)
  localTZA : Z -> bool -> Z;
  (* [new Date(s)] for a string [s] that is not a calendar date written
     YYYY-MM-DD: the other ISO forms and the engine's own formats *)
  parseOther : string -> Date;
  (* [String.prototype.toLowerCase] and [String.prototype.trim] *)
  toLowerCase : string -> string;
  trim : string -> string
}.

Definition maxTime : Z := 8640000000000000.

(** TimeClip: a time value beyond the range of [Date] is NaN. *)
Definition timeClip (t : Z) : Date :=
  if Z.abs t <=? maxTime then ValidDate t else InvalidDate.

(** [Date.prototype.getTime]: NaN is [None]. *)
Definition getTime (d : Date) : option Z :=
  match d with InvalidDate => None | ValidDate t => Some t end.

(** [Date.UTC(y, m, d)] made a date: a year from 0 to 99 means 1900 + y. *)
Definition Date_UTC (y m d : Z) : Date :=
  let yr := if (0 <=? y) && (y <=? 99) then 1900 + y else y in
  timeClip (makeDate (makeDay yr m d) 0).

(** The shape YYYY-MM-DD, that is [/^\d{4}-\d{2}-\d{2}$/], split at the dashes
    and converted with [Number]. *)
Definition splitYMD (s : string) : option (Z * Z * Z) :=
  if (String.length s =? 10)%nat
     && String.eqb (String.substring 4 1 s) "-" && String.eqb (String.substring 7 1 s) "-"
  then
    match digits (String.substring 0 4 s), digits (String.substring 5 2 s), digits (String.substring 8 2 s) with
    | Some y, Some m, Some d => Some (y, m, d)
    | _, _, _ => None
    end
  else None.

(** [Date.prototype.toISOString] of a valid date: its fields in UTC. *)
Definition isoYear (y : Z) : string :=
  if (0 <=? y) && (y <=? 9999) then padStart 4 y
  else (if y <? 0 then "-"%string else "+"%string) +:+ padStart 6 (Z.abs y).

Definition toISOString (t : Z) : string :=
  let u := fieldsOf t in
  let ms := dt_ms u in
  isoYear (dt_year u) +:+ "-" +:+ padStart 2 (dt_month u + 1) +:+ "-"
  +:+ padStart 2 (dt_day u) +:+ "T" +:+ padStart 2 (ms / 3600000) +:+ ":"
  +:+ padStart 2 (ms / 60000 mod 60) +:+ ":" +:+ padStart 2 (ms / 1000 mod 60)
  +:+ "." +:+ padStart 3 (ms mod 1000) +:+ "Z".

Section WithHost.
Context {host : Host}.

(** LocalTime and UTC of ECMAScript. *)
Definition localTime (t : Z) : Z := t + localTZA t true.
Definition utc (t : Z) : Z := t - localTZA t false.

(** The fields of a date in local time. *)
Definition localFields (d : Date) : option DateTime :=
  match d with
  | InvalidDate => None
  | ValidDate t => Some (fieldsOf (localTime t))
  end.

Definition getFullYear (d : Date) : option Z := dt_year <$> localFields d.
Definition getMonth (d : Date) : option Z := dt_month <$> localFields d.
Definition getDate (d : Date) : option Z := dt_day <$> localFields d.

(** The setters of [Date.prototype], in local time.  An invalid date stays
    invalid; [setFullYear] is used here on valid dates only. *)
Definition setDate (d : Date) (day : Z) : Date :=
  match d with
  | InvalidDate => InvalidDate
  | ValidDate t =>
      let l := fieldsOf (localTime t) in
      timeClip (utc (makeDate (makeDay (dt_year l) (dt_month l) day) (dt_ms l)))
  end.

Definition setMonth (d : Date) (m day : Z) : Date :=
  match d with
  | InvalidDate => InvalidDate
  | ValidDate t =>
      let l := fieldsOf (localTime t) in
      timeClip (utc (makeDate (makeDay (dt_year l) m day) (dt_ms l)))
  end.

Definition setFullYear (d : Date) (y m day : Z) : Date :=
  match d with
  | InvalidDate => InvalidDate
  | ValidDate t =>
      let l := fieldsOf (localTime t) in
      timeClip (utc (makeDate (makeDay y m day) (dt_ms l)))
  end.

Definition setHours (d : Date) (h mi s ms : Z) : Date :=
  match d with
  | InvalidDate => InvalidDate
  | ValidDate t =>
      timeClip (utc (makeDate (localTime t / msPerDay) (makeTime h mi s ms)))
  end.

(** [new Date(s)]: a calendar date written YYYY-MM-DD is midnight UTC of that
    day; every other string is left to the host. *)
Definition newDate (s : string) : Date :=
  match splitYMD s with
  | Some (y, m, d) =>
      if (1 <=? m) && (m <=? 12) && (1 <=? d) && (d <=? daysInMonth y (m - 1))
      then timeClip (makeDate (makeDay y (m - 1) d) 0)
      else parseOther s
  | None => parseOther s
  end.

End WithHost.

End JS.

(** ** date-fns: the functions the store and the pages import *)

Module DateFns.
Import JS.

Section WithHost.
Context {host : Host}.

(** [startOfMonth(date)]: [setDate(1)] then [setHours(0, 0, 0, 0)]. *)
Definition startOfMonth (date : Date) : Date :=
  setHours (setDate date 1) 0 0 0 0.

(** [addMonths(date, amount)]: the last day of the desired month is found
    with [setMonth(month + amount + 1, 0)]; a day of the month that this month
    does not have is replaced by that last day. *)
Definition addMonths (date : Date) (amount : Z) : Date :=
  match localFields date with
  | None => InvalidDate
  | Some l =>
      if amount =? 0 then date
      else
        let dayOfMonth := dt_day l in
        let endOfDesiredMonth := setMonth date (dt_month l + amount + 1) 0 in
        match localFields endOfDesiredMonth with
        | None => InvalidDate
        | Some e =>
            let daysInMonth := dt_day e in
            if daysInMonth <=? dayOfMonth then endOfDesiredMonth
            else setFullYear date (dt_year e) (dt_month e) dayOfMonth
        end
  end.

(** [subMonths(date, amount)] is [addMonths(date, -amount)]. *)
Definition subMonths (date : Date) (amount : Z) : Date := addMonths date (- amount).

(** [isSameMonth(a, b)]: same local year and same local month; an invalid
    date is in no month. *)
Definition isSameMonth (a b : Date) : bool :=
  match localFields a, localFields b with
  | Some x, Some y =>
      (dt_year x =? dt_year y) && (dt_month x =? dt_month y)
  | _, _ => false
  end.

(** The year of the era, as the token [yyyy] prints it. *)
Definition yearOfEra (y : Z) : Z := if 0 <? y then y else 1 - y.

(** [format(date, 'yyyy-MM-dd')] of the valid date with time value [t]: the
    year of the era on four digits, the month and the day on two, in local
    time. *)
Definition format_yyyy_MM_dd (t : Z) : string :=
  let d := fieldsOf (localTime t) in
  padStart 4 (yearOfEra (dt_year d)) +:+ "-" +:+ padStart 2 (dt_month d + 1)
  +:+ "-" +:+ padStart 2 (dt_day d).

End WithHost.

End DateFns.

(** ** [src/lib/types.ts] *)

(** A [LucideIcon] is a component; the store only passes it on. *)
Inductive Icon := PiggyBank | OtherIcon (name : string).

Module Category.
Record t := mk {
  id : string;
  name : string;
  color : string;
  icon : Icon;
  isArchived : bool;
  createdAt : string
}.
End Category.

Module Transaction.
Record t := mk {
  id : string;
  date : string;
  year : option Z;          (* [None] is NaN *)
  month : option Z;
  categoryId : string;
  amount : JSNumber.number;
  notes : option string;
  createdAt : string
}.
End Transaction.

(** [Partial<Transaction>]: every key may be missing.  [notes] is optional in
    [Transaction] itself, so a present key may hold [undefined]. *)
Module PartialTransaction.
Record t := mk {
  id : option string;
  date : option string;
  year : option (option Z);
  month : option (option Z);
  categoryId : option string;
  amount : option JSNumber.number;
  notes : option (option string);
  createdAt : option string
}.
Definition empty : t := mk None None None None None None None None.
End PartialTransaction.

(** The object spread [{ ...t, ...p }]: the keys of [p] win. *)
Definition spread (t : Transaction.t) (p : PartialTransaction.t) : Transaction.t :=
  Transaction.mk
    (default (Transaction.id t) (PartialTransaction.id p))
    (default (Transaction.date t) (PartialTransaction.date p))
    (default (Transaction.year t) (PartialTransaction.year p))
    (default (Transaction.month t) (PartialTransaction.month p))
    (default (Transaction.categoryId t) (PartialTransaction.categoryId p))
    (default (Transaction.amount t) (PartialTransaction.amount p))
    (default (Transaction.notes t) (PartialTransaction.notes p))
    (default (Transaction.createdAt t) (PartialTransaction.createdAt p)).

(** ** [src/lib/store.ts] *)

Module Store.
Import JS DateFns.

(** [Omit<Transaction, 'id' | 'createdAt' | 'year' | 'month'>] *)
Record NewTransaction := mkNewTransaction {
  nt_date : string;
  nt_categoryId : string;
  nt_amount : JSNumber.number;
  nt_notes : option string
}.

(** [Omit<Category, 'id' | 'createdAt' | 'isArchived' | 'icon'> & {icon?: any}];
    a missing or falsy icon is [None]. *)
Record NewCategory := mkNewCategory {
  nc_name : string;
  nc_color : string;
  nc_icon : option Icon
}.

Record AppState := mkAppState {
  categories : list Category.t;
  transactions : list Transaction.t;
  currentMonth : Date;
  addExpenseSheetOpen : bool;
  editingTransaction : option PartialTransaction.t
}.

(** The readings of the system clock during one call, in milliseconds since
    the epoch: [clk k] is what the [k]-th place of the call that reads the
    clock gets.  The clock is within the range of [Date]. *)
Definition Clock := nat -> Z.

Section WithHost.
Context {host : Host}.

(** The state that [create] is given; [t] is the clock at that moment. *)
Definition initialState (t : Z) : AppState :=
  mkAppState [] [] (startOfMonth (ValidDate t)) false None.

Definition setAddExpenseSheetOpen (open : bool) (transaction : option PartialTransaction.t)
    (state : AppState) : AppState :=
  mkAppState (categories state) (transactions state) (currentMonth state)
             open transaction.

(** The argument of [new Date(transaction.date || new Date())]. *)
Definition dateOrNow (date : string) (t : Z) : Date :=
  if truthy date then newDate date else ValidDate t.

Definition newTxn (clk : Clock) (transaction : NewTransaction) : Transaction.t :=
  Transaction.mk
    ("txn-" +:+ ofInt (clk 0%nat))
    (if truthy (nt_date transaction) then nt_date transaction
     else format_yyyy_MM_dd (clk 1%nat))
    (getFullYear (dateOrNow (nt_date transaction) (clk 2%nat)))
    ((fun m => m + 1) <$> getMonth (dateOrNow (nt_date transaction) (clk 3%nat)))
    (nt_categoryId transaction)
    (nt_amount transaction)
    (nt_notes transaction)
    (toISOString (clk 4%nat)).

Definition addTransaction (clk : Clock) (transaction : NewTransaction)
    (state : AppState) : AppState :=
  mkAppState (categories state)
             (transactions state ++ [newTxn clk transaction])
             (currentMonth state) (addExpenseSheetOpen state) (editingTransaction state).

Definition updateTransaction (id : string) (updatedTxn : PartialTransaction.t)
    (state : AppState) : AppState :=
  mkAppState (categories state)
             (map (fun t => if String.eqb (Transaction.id t) id
                            then spread t updatedTxn else t)
                  (transactions state))
             (currentMonth state) (addExpenseSheetOpen state) (editingTransaction state).

Definition deleteTransaction (id : string) (state : AppState) : AppState :=
  mkAppState (categories state)
             (List.filter (fun t => negb (String.eqb (Transaction.id t) id))
                          (transactions state))
             (currentMonth state) (addExpenseSheetOpen state) (editingTransaction state).

Definition newCategory (clk : Clock) (category : NewCategory) : Category.t :=
  Category.mk
    ("cat-" +:+ ofInt (clk 0%nat))
    (nc_name category)
    (nc_color category)
    (default PiggyBank (nc_icon category))
    false
    (toISOString (clk 1%nat)).

(** [addCategory] returns the new category and appends it. *)
Definition addCategory (clk : Clock) (category : NewCategory)
    (state : AppState) : Category.t * AppState :=
  (newCategory clk category,
   mkAppState (categories state ++ [newCategory clk category])
              (transactions state)
              (currentMonth state) (addExpenseSheetOpen state) (editingTransaction state)).

Definition deleteCategory (id : string) (state : AppState) : AppState :=
  mkAppState (List.filter (fun c => negb (String.eqb (Category.id c) id))
                          (categories state))
             (List.filter (fun t => negb (String.eqb (Transaction.categoryId t) id))
                          (transactions state))
             (currentMonth state) (addExpenseSheetOpen state) (editingTransaction state).

(** [name] is [undefined] or [null] ([None]) or a string. *)
Definition getCategoryByName (name : option string) (state : AppState)
    : option Category.t :=
  match name with
  | None => None
  | Some n =>
      if truthy n
      then
        let lowerCaseName := toLowerCase n in
        List.find (fun c => String.eqb (toLowerCase (Category.name c)) lowerCaseName)
                  (categories state)
      else None
  end.

Definition getCategoryById (id : string) (state : AppState) : option Category.t :=
  List.find (fun c => String.eqb (Category.id c) id) (categories state).

Definition setCurrentMonth (date : Date) (state : AppState) : AppState :=
  mkAppState (categories state) (transactions state) (startOfMonth date)
             (addExpenseSheetOpen state) (editingTransaction state).

Definition nextMonth (state : AppState) : AppState :=
  mkAppState (categories state) (transactions state)
             (addMonths (currentMonth state) 1)
             (addExpenseSheetOpen state) (editingTransaction state).

Definition prevMonth (state : AppState) : AppState :=
  mkAppState (categories state) (transactions state)
             (subMonths (currentMonth state) 1)
             (addExpenseSheetOpen state) (editingTransaction state).

(** The calls a client of the store can make, with what each is given. *)
Inductive Action :=
| SetAddExpenseSheetOpen (open : bool) (transaction : option PartialTransaction.t)
| AddTransaction (clk : Clock) (transaction : NewTransaction)
| UpdateTransaction (id : string) (updatedTxn : PartialTransaction.t)
| DeleteTransaction (id : string)
| AddCategory (clk : Clock) (category : NewCategory)
| DeleteCategory (id : string)
| SetCurrentMonth (date : Date)
| NextMonth
| PrevMonth.

Definition perform (a : Action) (state : AppState) : AppState :=
  match a with
  | SetAddExpenseSheetOpen open transaction => setAddExpenseSheetOpen open transaction state
  | AddTransaction clk transaction => addTransaction clk transaction state
  | UpdateTransaction id updatedTxn => updateTransaction id updatedTxn state
  | DeleteTransaction id => deleteTransaction id state
  | AddCategory clk category => snd (addCategory clk category state)
  | DeleteCategory id => deleteCategory id state
  | SetCurrentMonth date => setCurrentMonth date state
  | NextMonth => nextMonth state
  | PrevMonth => prevMonth state
  end.

(** The states the store can be in: the initial one and those a call leads
    to. *)
Inductive reachable : AppState -> Prop :=
| reachable_init (t : Z) : reachable (initialState t)
| reachable_step (a : Action) (state : AppState) :
    reachable state -> reachable (perform a state).

End WithHost.

End Store.

(** ** Arrays and objects of the runtime, as the pages use them *)

Module JSArray.

Section Sort.
Context {A : Type}.
(** The sign of what the comparator returns; NaN counts as zero ([Eq]). *)
Variable compareFn : A -> A -> comparison.

Fixpoint insert (x : A) (l : list A) : list A :=
  match l with
  | [] => [x]
  | y :: r =>
      match compareFn x y with
      | Gt => y :: insert x r
      | _ => x :: l
      end
  end.

(** [Array.prototype.sort(compareFn)] for a comparator that orders the
    elements consistently: the sort is stable.  (With another comparator the
    order is the engine's choice.) *)
Fixpoint sort (l : list A) : list A :=
  match l with
  | [] => []
  | x :: r => insert x (sort r)
  end.
End Sort.

End JSArray.

(** An object made with [{}] and filled by assignments [o[k] = v]: its own
    properties in the order of their creation, over what it inherits from
    [Object.prototype]. *)
Module JSObject.
Import JS JSNumber.

(** What a property of the object of [categoryTotals] can hold: a number, or
    a string that begins with the text of an inherited function or object (and
    so is no numeral). *)
Inductive Value := Num (x : number) | Text.

Definition t := list (string * Value).

(** The property names that [Object.prototype] gives to every object. *)
Definition prototypeKeys : list string :=
  ["constructor"; "hasOwnProperty"; "isPrototypeOf"; "propertyIsEnumerable";
   "toLocaleString"; "toString"; "valueOf"; "__proto__";
   "__defineGetter__"; "__defineSetter__"; "__lookupGetter__";
   "__lookupSetter__"]%string.

Definition inherited (k : string) : bool := existsb (String.eqb k) prototypeKeys.

(** [o[k]]: an own property, else an inherited one (a function, or for
    [__proto__] the prototype itself), else [undefined]. *)
Inductive Lookup := Own (v : Value) | Inherited | Missing.

Definition get (o : t) (k : string) : Lookup :=
  match List.find (fun e => String.eqb (fst e) k) o with
  | Some e => Own (snd e)
  | None => if inherited k then Inherited else Missing
  end.

Fixpoint setOwn (o : t) (k : string) (v : Value) : t :=
  match o with
  | [] => [(k, v)]
  | e :: r => if String.eqb (fst e) k then (k, v) :: r else e :: setOwn r k v
  end.

(** [o[k] = v] for a number or a string [v]: the setter of [__proto__]
    ignores such a value; every other key becomes (or stays) an own
    property. *)
Definition set (o : t) (k : string) (v : Value) : t :=
  if String.eqb k "__proto__" then o else setOwn o k v.

(** [x || 0]: a falsy number (0, -0, NaN) and [undefined] give 0; a function
    or an object is truthy, and so is a string with a character in it. *)
Definition orZero (x : Lookup) : Value :=
  match x with
  | Own (Num n) => if JSNumber.truthy n then Num n else Num zero
  | Own Text => Text
  | Inherited => Text
  | Missing => Num zero
  end.

(** [x + n] for a number [n]: anything else than a number on the left is
    turned into a string, and the number is appended to it. *)
Definition plus (x : Value) (n : number) : Value :=
  match x with
  | Num m => Num (add m n)
  | Text => Text
  end.

(** ToNumber: such a string is no numeral. *)
Definition toNumber (x : Value) : number :=
  match x with
  | Num m => m
  | Text => NaN
  end.

(** An array index: the canonical decimal form of an integer from 0 to
    2^32 - 2. *)
Definition arrayIndex (k : string) : option Z :=
  match digits k with
  | Some n => if String.eqb (ofInt n) k && (n <=? 4294967294) then Some n else None
  | None => None
  end.

Definition isArrayIndex (e : string * Value) : bool :=
  match arrayIndex (fst e) with Some _ => true | None => false end.

Definition compareIndex (a b : string * Value) : comparison :=
  match arrayIndex (fst a), arrayIndex (fst b) with
  | Some x, Some y => x ?= y
  | _, _ => Eq
  end.

(** [Object.entries(o)]: the array indices in ascending order, then the other
    keys in the order of their creation. *)
Definition entries (o : t) : list (string * Value) :=
  JSArray.sort compareIndex (List.filter isArrayIndex o)
  ++ List.filter (fun e => negb (isArrayIndex e)) o.

End JSObject.

(** ** [src/app/(app)/transactions/page.tsx] *)

Module TransactionsPage.
Import JS DateFns.

Section WithHost.
Context {host : Host}.

(** The comparator [(a, b) => new Date(b.date).getTime() - new Date(a.date).getTime()];
    the sign of a difference of two time values is that of the exact
    difference. *)
Definition byDateDesc (a b : Transaction.t) : comparison :=
  match getTime (newDate (Transaction.date b)), getTime (newDate (Transaction.date a)) with
  | Some tb, Some ta => (tb - ta) ?= 0
  | _, _ => Eq
  end.

Definition filteredTransactions (transactions : list Transaction.t)
    (currentMonth : Date) : list Transaction.t :=
  JSArray.sort byDateDesc
    (List.filter (fun t => isSameMonth (newDate (Transaction.date t)) currentMonth)
                 transactions).

End WithHost.

End TransactionsPage.

(** ** [src/app/(app)/dashboard/page.tsx] *)

Module DashboardPage.
Import JS JSNumber DateFns.

Record Summary := mkSummary {
  total : number;
  transactionCount : nat;
  topCategory : string
}.

(** What the comparator [(a, b) => b[1] - a[1]] returns. *)
Definition difference (a b : string * JSObject.Value) : number :=
  sub (JSObject.toNumber (snd b)) (JSObject.toNumber (snd a)).

Definition byTotalDesc (a b : string * JSObject.Value) : comparison :=
  signOf (difference a b).

(** The step of the [forEach] of [summary]:
    [categoryTotals[id] = (categoryTotals[id] || 0) + t.amount]. *)
Definition addToCategory (categoryTotals : JSObject.t) (t : Transaction.t) : JSObject.t :=
  JSObject.set categoryTotals (Transaction.categoryId t)
    (JSObject.plus (JSObject.orZero (JSObject.get categoryTotals (Transaction.categoryId t)))
                   (Transaction.amount t)).

Definition categoryTotals (filtered : list Transaction.t) : JSObject.t :=
  fold_left addToCategory filtered [].

Definition summary (filtered : list Transaction.t) (categories : list Category.t)
    : Summary :=
  let total := fold_left (fun sum t => add sum (Transaction.amount t)) filtered zero in
  let topCategoryEntry :=
    head (JSArray.sort byTotalDesc (JSObject.entries (categoryTotals filtered))) in
  let topCategory :=
    match topCategoryEntry with
    | Some e => List.find (fun c => String.eqb (Category.id c) (fst e)) categories
    | None => None
    end in
  mkSummary total (length filtered)
            (match topCategory with Some c => Category.name c | None => "N/A" end).

Section WithHost.
Context {host : Host}.

(** [toUTCDate(d)] for a string [d]. *)
Definition toUTCDate (d : string) : Date :=
  match splitYMD d with
  | Some (y, m, day) => Date_UTC y (m - 1) day
  | None => newDate d
  end.

Definition filteredTransactions (transactions : list Transaction.t)
    (currentMonth : Date) : list Transaction.t :=
  List.filter (fun t => isSameMonth (toUTCDate (Transaction.date t)) currentMonth)
              transactions.

End WithHost.

End DashboardPage.
(** ** The ledger store of the backend: snapshots *)

Module Ledger.

(** Modelled from the spec: the three kinds of error that the ledger store
    reports. *)
Inductive Error := ValidationError | NotFoundError | ConflictError.

(** Modelled from the spec: the record of a category in the ledger store
    (the backend's database service is not part of the sources).  The [id] is
    the key under which the record is stored. *)
Record CategoryRow := mkCategoryRow {
  name : string;
  color : string;
  icon : string;
  created_at : string
}.

(** Modelled from the spec: the record of a transaction in the ledger store,
    stored under its [id]. *)
Record TransactionRow := mkTransactionRow {
  amount : Qc;
  category_id : string;
  category_name : string;
  notes : option string;
  date : string;
  year_month : string;
  created_at_t : string;
  updated_at : string
}.

(** Modelled from the spec: the store holds the categories and the
    transactions, each identified by its unique [id]. *)
Record Db := mkDb {
  categories : gmap string CategoryRow;
  transactions : gmap string TransactionRow
}.

(** Modelled from the spec: a freshly emptied store. *)
Definition empty : Db := mkDb ∅ ∅.

(** Modelled from the spec: the export and import payload,
    [{ "categories": [...], "transactions": [...] }], every record with its
    [id]. *)
Record Snapshot := mkSnapshot {
  s_categories : list (string * CategoryRow);
  s_transactions : list (string * TransactionRow)
}.

(** Modelled from the spec: [export_data()] produces all categories and all
    transactions. *)
Definition export_data (db : Db) : Snapshot :=
  mkSnapshot (map_to_list (categories db)) (map_to_list (transactions db)).

(** Modelled from the spec: the two import policies that it leaves to choose
    from, to reject a snapshot on any existing id or to upsert. *)
Inductive Policy := RejectExisting | Upsert.

(** Modelled from the spec: the records of a snapshot are inserted one after
    the other, a later record for an id replacing an earlier one. *)
Definition insertAll {V : Type} (records : list (string * V)) (table : gmap string V)
    : gmap string V :=
  fold_left (fun acc r => <[r.1 := r.2]> acc) records table.

(** Modelled from the spec: some record of the snapshot has an id that the
    table already holds. *)
Definition conflicts {V : Type} (records : list (string * V)) (table : gmap string V)
    : bool :=
  existsb (fun r => bool_decide (is_Some (table !! r.1))) records.

(** Modelled from the spec: [import_data(snapshot)] inserts the records of the
    snapshot, all or none; under [RejectExisting] an [id] that the store
    already holds is a conflict, under [Upsert] the record replaces the stored
    one. *)
Definition import_data (policy : Policy) (snapshot : Snapshot) (db : Db)
    : Db + Error :=
  match policy with
  | RejectExisting =>
      if conflicts (s_categories snapshot) (categories db)
         || conflicts (s_transactions snapshot) (transactions db)
      then inr ConflictError
      else inl (mkDb (insertAll (s_categories snapshot) (categories db))
                     (insertAll (s_transactions snapshot) (transactions db)))
  | Upsert =>
      inl (mkDb (insertAll (s_categories snapshot) (categories db))
                (insertAll (s_transactions snapshot) (transactions db)))
  end.

(** Modelled from the spec: a failed write reports the error and leaves the
    prior state. *)
Definition stateAfter (result : Db + Error) (prior : Db) : Db :=
  match result with inl db => db | inr _ => prior end.

End Ledger.

(** ** Notions used to state the properties *)

Module Notions.
Import JS JSNumber DateFns.

(** The stored categories with a given name. *)
Definition named (n : string) (cs : list Category.t) : list Category.t :=
  List.filter (fun c => String.eqb (Category.name c) n) cs.

(** A transaction with other notes and every other field as it was. *)
Definition withNotes (n : option string) (t : Transaction.t) : Transaction.t :=
  Transaction.mk (Transaction.id t) (Transaction.date t) (Transaction.year t)
                 (Transaction.month t) (Transaction.categoryId t)
                 (Transaction.amount t) n (Transaction.createdAt t).

(** The month bucket of a transaction, written YYYY-MM from its [year] and
    [month] fields. *)
Definition yearMonth (t : Transaction.t) : option string :=
  match Transaction.year t, Transaction.month t with
  | Some y, Some m => Some (padStart 4 y +:+ "-" +:+ padStart 2 m)
  | _, _ => None
  end.

(** The bucket agrees with the first seven characters of the stored date. *)
Definition bucketConsistent (t : Transaction.t) : Prop :=
  yearMonth t = Some (String.substring 0 7 (Transaction.date t)).

(** The month a date falls in, in local time: the year and the month counted
    from 1; an invalid date falls in none. *)
Definition monthKey `{Host} (d : Date) : option (Z * Z) :=
  (fun l => (dt_year l, dt_month l + 1)) <$> localFields d.

(** Two dates fall in the same month of local time. *)
Definition sameLocalMonth `{Host} (a b : Date) : Prop :=
  exists k, monthKey a = Some k /\ monthKey b = Some k.

(** The [year] and [month] fields are what [addTransaction] derives from the
    stored date. *)
Definition derivedFromDate `{Host} (t : Transaction.t) : Prop :=
  Transaction.year t = getFullYear (newDate (Transaction.date t))
  /\ Transaction.month t = (fun m => m + 1) <$> getMonth (newDate (Transaction.date t)).

(** The time value of the stored date. *)
Definition dateTime `{Host} (t : Transaction.t) : option Z :=
  getTime (newDate (Transaction.date t)).

(** Most recent first: both dates are valid and the first is not earlier. *)
Definition notEarlier `{Host} (a b : Transaction.t) : Prop :=
  exists ta tb, dateTime a = Some ta /\ dateTime b = Some tb /\ tb <= ta.

(** The transactions whose date has a given time value. *)
Definition atTime `{Host} (v : option Z) (l : list Transaction.t) : list Transaction.t :=
  List.filter (fun t => bool_decide (dateTime t = v)) l.


(** The subtotal of the transactions of one category as [summary] adds it up:
    as the sum, except that a subtotal that has become 0 or NaN is taken for
    0 when the next amount is added. *)
Definition subtotal (l : list Transaction.t) : number :=
  fold_left (fun acc n => add (if truthy acc then acc else zero) n)
            (map Transaction.amount l) zero.

(** The transactions of a list that reference a given category. *)
Definition ofCategory (c : string) (l : list Transaction.t) : list Transaction.t :=
  List.filter (fun t => String.eqb (Transaction.categoryId t) c) l.

(** A comparator orders the elements of a list consistently, which is what
    [Array.prototype.sort] needs for its result to be determined: it never
    returns NaN, what it returns for [b] and [a] is opposite in sign to what
    it returns for [a] and [b], and not being after is transitive. *)
Definition consistent {A : Type} (compareFn : A -> A -> number) (l : list A) : Prop :=
  forall a b, In a l -> In b l ->
    isNaN (compareFn a b) = false
    /\ signOf (compareFn b a) = CompOpp (signOf (compareFn a b))
    /\ forall c, In c l ->
         signOf (compareFn a b) <> Gt -> signOf (compareFn b c) <> Gt ->
         signOf (compareFn a c) <> Gt.

(** The local time of the host is UTC plus [off] milliseconds, at all
    times. *)
Definition fixedOffset `{Host} (off : Z) : Prop :=
  forall t isUTC, localTZA t isUTC = off.

(** The fields name a day of the calendar: a month from 0 to 11 and a day
    of that month. *)
Definition onCalendar (l : DateTime) : Prop :=
  0 <= dt_month l < 12 /\ 1 <= dt_day l <= daysInMonth (dt_year l) (dt_month l).

(** The fields are those of a day of the calendar and of a time within it. *)
Definition wellFormed (l : DateTime) : Prop :=
  onCalendar l /\ 0 <= dt_ms l < msPerDay.

(** The day number of the fields, and their time value read in UTC. *)
Definition dayOf (l : DateTime) : Z :=
  daysFromCivil (dt_year l) (dt_month l) (dt_day l).

Definition timeOfFields (l : DateTime) : Z := makeDate (dayOf l) (dt_ms l).

(** The time value of local midnight on the first day of month [m] of year
    [y], on a host [off] milliseconds ahead of UTC. *)
Definition monthStartTime (off y m : Z) : Z :=
  makeDate (daysFromCivil y m 1) 0 - off.



(** A calendar date written YYYY-MM-DD. *)
Definition calendarDate (d : string) : Prop :=
  match splitYMD d with
  | None => False
  | Some (y, m, day) => 1 <= m <= 12 /\ 1 <= day <= daysInMonth y (m - 1)
  end.

(** A calendar date written YYYY-MM-DD of the year 100 or later. *)
Definition calendarDateFrom100 (d : string) : Prop :=
  match splitYMD d with
  | None => False
  | Some (y, m, day) => 100 <= y /\ 1 <= m <= 12 /\ 1 <= day <= daysInMonth y (m - 1)
  end.

End Notions.

(** ** Sample hosts, records and states *)

Module Sample.
Import JS JSNumber DateFns Store.

(** Lower-casing as it acts on the first 128 code points: the letters A to Z;
    the samples lower-case no other characters. *)
Definition isUpper (c : ascii) : bool :=
  let n := nat_of_ascii c in (65 <=? n)%nat && (n <=? 90)%nat.

Definition lowerChar (c : ascii) : ascii :=
  if isUpper c then ascii_of_nat (nat_of_ascii c + 32) else c.

Fixpoint asciiLower (s : string) : string :=
  match s with
  | EmptyString => EmptyString
  | String c r => String (lowerChar c) (asciiLower r)
  end.

(** Trimming as it acts on the first 128 code points, whose white space is
    tab, line feed, vertical tab, form feed, carriage return and space; the
    samples trim no other characters. *)
Definition isSpace (c : ascii) : bool :=
  let n := nat_of_ascii c in ((9 <=? n)%nat && (n <=? 13)%nat) || (n =? 32)%nat.

Fixpoint trimStart (s : string) : string :=
  match s with
  | EmptyString => EmptyString
  | String c r => if isSpace c then trimStart r else s
  end.

Fixpoint trimEnd (s : string) : string :=
  match s with
  | EmptyString => EmptyString
  | String c r =>
      match trimEnd r with
      | EmptyString => if isSpace c then EmptyString else String c EmptyString
      | r' => String c r'
      end
  end.

Definition asciiTrim (s : string) : string := trimEnd (trimStart s).

(** A host five and a half hours ahead of UTC, and one five hours behind,
    both without daylight saving. *)
Definition kolkata : Host :=
  {| localTZA := fun _ _ => 330 * msPerMinute;
     parseOther := fun _ => InvalidDate;
     toLowerCase := asciiLower;
     trim := asciiTrim |}.

Definition newYork : Host :=
  {| localTZA := fun _ _ => -300 * msPerMinute;
     parseOther := fun _ => InvalidDate;
     toLowerCase := asciiLower;
     trim := asciiTrim |}.



(** 2024-01-15T10:00:00.000Z and one second later. *)
Definition clock1 : Clock := fun _ => 1705312800000.
Definition clock2 : Clock := fun _ => 1705312801000.

Definition food : NewCategory := mkNewCategory "Food" "#ff6b6b" None.

Definition lunch : NewTransaction :=
  mkNewTransaction "2024-01-15" "cat-1705312800000" (decimal 255 1) (Some "Lunch").

Definition start : AppState := Eval vm_compute in @initialState kolkata 1705312800000.

Definition withFood : AppState :=
  Eval vm_compute in @perform kolkata (AddCategory clock1 food) start.

Definition withFoodTwice : AppState :=
  Eval vm_compute in @perform kolkata (AddCategory clock2 food) withFood.

Definition withLunch : AppState :=
  Eval vm_compute in @perform kolkata (AddTransaction clock2 lunch) withFood.

Definition notesOnly (n : option string) : PartialTransaction.t :=
  PartialTransaction.mk None None None None None None (Some n) None.

Definition dateOnly (d : string) : PartialTransaction.t :=
  PartialTransaction.mk None (Some d) None None None None None None.


(** Two expenses on food in January 2024 and one in February. *)
Definition expense (id date : string) (y m : Z) (category : string) (amount : number)
    : Transaction.t :=
  Transaction.mk id date (Some y) (Some m) category amount None
                 "2024-03-01T09:00:00.000Z".

Definition january15 : Transaction.t :=
  expense "txn-001" "2024-01-15" 2024 1 "food-001" (decimal 255 1).
Definition february3 : Transaction.t :=
  expense "txn-002" "2024-02-03" 2024 2 "food-001" (ofZ 7).
Definition january20 : Transaction.t :=
  expense "txn-003" "2024-01-20" 2024 1 "food-001" (ofZ 10).

Definition expenses : list Transaction.t := [january15; february3; january20].

Definition foodAndDining : Category.t :=
  Category.mk "food-001" "Food & Dining" "#FF6B6B" PiggyBank false
              "2024-01-01T09:00:00.000Z".




(** The months of January and February 2024 as the store of [kolkata] shows
    them: their first days at local midnight. *)
Definition january : Date := ValidDate 1704047400000.

(** February 2024 as the store of [newYork] shows it, and an expense dated
    the first of March. *)
Definition februaryWest : Date := ValidDate 1706763600000.
Definition marchFirst : Transaction.t :=
  expense "txn-401" "2024-03-01" 2024 3 "food-001" (ofZ 4).

(** A ledger with the category and the three expenses. *)
Definition foodRow : Ledger.CategoryRow :=
  Ledger.mkCategoryRow "Food & Dining" "#FF6B6B" "pizza" "2024-01-01T09:00:00Z".

Definition lunchRow : Ledger.TransactionRow :=
  Ledger.mkTransactionRow (Q2Qc 25.5) "food-001" "Food & Dining" None "2024-01-15"
                          "2024-01" "2024-01-15T12:00:00Z" "2024-01-15T12:00:00Z".

Definition smallLedger : Ledger.Db :=
  Ledger.mkDb {[ "food-001"%string := foodRow ]} {[ "txn-001"%string := lunchRow ]}.

End Sample.

(** ** More of the runtime: base 16 *)

Module JSText.
Import JS.

Definition hexChar (d : Z) : ascii :=
  if d <? 10 then ascii_of_nat (Z.to_nat (48 + d)) else ascii_of_nat (Z.to_nat (87 + d)).

Fixpoint toHex (fuel : nat) (n : Z) : string :=
  match fuel with
  | O => EmptyString
  | S f =>
      if n <? 16 then String (hexChar n) EmptyString
      else toHex f (n / 16) +:+ String (hexChar (n mod 16)) EmptyString
  end.

(** [n.toString(16)] for an integer [0 <= n]. *)
Definition toString16 (n : Z) : string := toHex (S (Z.to_nat (Z.log2 n))) n.

(** [s.padStart(width, '0')]. *)
Definition padStart0 (width : nat) (s : string) : string :=
  String.concat "" (repeat "0"%string (width - String.length s)) +:+ s.

Definition isHexDigit (c : ascii) : bool :=
  let n := nat_of_ascii c in
  ((48 <=? n)%nat && (n <=? 57)%nat)
  || ((97 <=? n)%nat && (n <=? 102)%nat)
  || ((65 <=? n)%nat && (n <=? 70)%nat).

Fixpoint allHex (s : string) : bool :=
  match s with
  | EmptyString => true
  | String c r => isHexDigit c && allHex r
  end.

(** The test of [/^#[0-9a-f]{6}$/i]. *)
Definition isHexColor (s : string) : bool :=
  match s with
  | String c r => Ascii.eqb c "#" && (String.length r =? 6)%nat && allHex r
  | EmptyString => false
  end.

(** The template [`#${n.toString(16).padStart(6, '0')}`], where [n] is what
    [Math.floor(Math.random() * 16777215)] gave: an integer from 0 to
    16777214. *)
Definition randomColor (n : Z) : string := "#" +:+ padStart0 6 (toString16 n).

End JSText.

(** ** [src/components/create-category-dialog.tsx] *)

Module CreateCategoryDialog.
Import JS JSText Store.

(** [CategoryFormValues] *)
Record CategoryFormValues := mkCategoryFormValues {
  name : string;
  color : string
}.

(** [categoryFormSchema]: a name of at least one character and a colour that
    passes the pattern. *)
Definition categoryFormSchema (data : CategoryFormValues) : bool :=
  (1 <=? String.length (name data))%nat && isHexColor (color data).

(** [onSubmit]: the store's part of it, [addCategory(data)]. *)
Definition onSubmit (clk : Clock) (data : CategoryFormValues) (state : AppState)
    : AppState :=
  snd (addCategory clk (mkNewCategory (name data) (color data) None) state).

(** [form.handleSubmit(onSubmit)]: [onSubmit] runs only on values that pass
    the schema. *)
Definition handleSubmit (clk : Clock) (data : CategoryFormValues) (state : AppState)
    : AppState :=
  if categoryFormSchema data then onSubmit clk data state else state.

End CreateCategoryDialog.

(** ** [src/components/add-expense-sheet.tsx] *)

Module AddExpenseSheet.
Import JS JSNumber DateFns Store.

(** [ExpenseFormValues].  The date is a valid [Date] ([z.date()] accepts no
    other), given by its time value; [notes] may be missing ([None]), hold
    [undefined] or a string. *)
Record ExpenseFormValues := mkExpenseFormValues {
  amount : number;
  categoryId : string;
  date : Z;
  notes : option (option string)
}.

(** [expenseFormSchema]: an amount that is a number (not NaN) and not below
    0.01, and a category id of at least one character. *)
Definition expenseFormSchema (data : ExpenseFormValues) : bool :=
  negb (isNaN (amount data)) && negb (ltb (amount data) (decimal 1 2))
  && (1 <=? String.length (categoryId data))%nat.

Section WithHost.
Context {host : Host}.

(** [editingTransaction?.id] as a condition, with the id it holds. *)
Definition editingId (state : AppState) : option string :=
  match editingTransaction state with
  | Some p =>
      match PartialTransaction.id p with
      | Some i => if JS.truthy i then Some i else None
      | None => None
      end
  | None => None
  end.

(** [transactionData], as the partial update that [updateTransaction] gets. *)
Definition asUpdate (data : ExpenseFormValues) : PartialTransaction.t :=
  PartialTransaction.mk None (Some (format_yyyy_MM_dd (date data))) None None
    (Some (categoryId data)) (Some (amount data)) (notes data) None.

(** [transactionData], as the new transaction that [addTransaction] gets. *)
Definition asNew (data : ExpenseFormValues) : NewTransaction :=
  mkNewTransaction (format_yyyy_MM_dd (date data)) (categoryId data) (amount data)
                   (mjoin (notes data)).

(** [onSubmit]: update the transaction being edited, or add a new one; then
    close the sheet. *)
Definition onSubmit (clk : Clock) (data : ExpenseFormValues) (state : AppState)
    : AppState :=
  setAddExpenseSheetOpen false None
    (match editingId state with
     | Some id => updateTransaction id (asUpdate data) state
     | None => addTransaction clk (asNew data) state
     end).

(** [form.handleSubmit(onSubmit)]. *)
Definition handleSubmit (clk : Clock) (data : ExpenseFormValues) (state : AppState)
    : AppState :=
  if expenseFormSchema data then onSubmit clk data state else state.

End WithHost.

End AddExpenseSheet.

(** ** [TransactionActions] of [src/app/(app)/transactions/page.tsx] *)

Module TransactionActions.
Import Store.

(** A transaction passed where a [Partial<Transaction>] is expected: every
    key is there. *)
Definition asPartial (t : Transaction.t) : PartialTransaction.t :=
  PartialTransaction.mk
    (Some (Transaction.id t)) (Some (Transaction.date t))
    (Some (Transaction.year t)) (Some (Transaction.month t))
    (Some (Transaction.categoryId t)) (Some (Transaction.amount t))
    (Some (Transaction.notes t)) (Some (Transaction.createdAt t)).

(** The Edit item: [setAddExpenseSheetOpen(true, transaction)]. *)
Definition edit (transaction : Transaction.t) (state : AppState) : AppState :=
  setAddExpenseSheetOpen true (Some (asPartial transaction)) state.

(** The confirmed Delete: [deleteTransaction(transaction.id)]. *)
Definition delete (transaction : Transaction.t) (state : AppState) : AppState :=
  deleteTransaction (Transaction.id transaction) state.

End TransactionActions.

(** ** The voice recorder: what it does with a parsed expense *)

Module VoiceRecorder.
Import JS JSNumber JSText Store.

(** [result.parsedExpense]; a field that is [undefined] or [null] is [None]. *)
Record ParsedExpense := mkParsedExpense {
  amount : option number;
  categoryName : option string;
  date : option string
}.

Section WithHost.
Context {host : Host}.

(** The category for the trimmed name: the stored one that
    [getCategoryByName] finds, else a new one; none for a missing or empty
    name.  [n] is the random number of the colour. *)
Definition resolveCategory (clk : Clock) (n : Z) (parsedExpense : ParsedExpense)
    (state : AppState) : option Category.t * AppState :=
  let categoryName := trim <$> categoryName parsedExpense in
  let category :=
    match categoryName with
    | Some nm => if JS.truthy nm then getCategoryByName (Some nm) state else None
    | None => None
    end in
  match category, categoryName with
  | None, Some nm =>
      if JS.truthy nm
      then
        let r := addCategory clk (mkNewCategory nm (randomColor n) None) state in
        (Some (fst r), snd r)
      else (None, state)
  | _, _ => (category, state)
  end.

(** The callback of the recorder's timer: resolve the category, then open the
    sheet with the amount, the category id and the date filled in. *)
Definition openSheet (clk : Clock) (n : Z) (parsedExpense : ParsedExpense)
    (state : AppState) : AppState :=
  let r := resolveCategory clk n parsedExpense state in
  let categoryId :=
    match fst r with
    | Some c => if JS.truthy (Category.id c) then Category.id c else ""%string
    | None => ""%string
    end in
  setAddExpenseSheetOpen true
    (Some (PartialTransaction.mk None (date parsedExpense) None None
             (Some categoryId) (amount parsedExpense) None None))
    (snd r).

End WithHost.

End VoiceRecorder.

(** ** [src/app/(app)/ask/page.tsx]: the transactions sent with a question *)

Module AskPage.
Import JS JSNumber DateFns.

(** What is sent of a transaction. *)
Record MonthTxn := mkMonthTxn {
  id : string;
  date : string;
  amount : number;
  categoryId : string;
  categoryName : option string;
  notes : option string
}.

Section WithHost.
Context {host : Host}.

(** [format(date, 'yyyy-MM')].  On an invalid date [format] throws a
    [RangeError]: [None]. *)
Definition format_yyyy_MM (d : Date) : option string :=
  match localFields d with
  | None => None
  | Some l =>
      Some (padStart 4 (yearOfEra (dt_year l)) +:+ "-" +:+ padStart 2 (dt_month l + 1))
  end.

(** [transactions.filter((t) => format(new Date(t.date), 'yyyy-MM') === ym)];
    the filter ends with the first exception of its callback. *)
Fixpoint filterMonth (ym : string) (transactions : list Transaction.t)
    : option (list Transaction.t) :=
  match transactions with
  | [] => Some []
  | t :: rest =>
      match format_yyyy_MM (newDate (Transaction.date t)) with
      | None => None
      | Some k =>
          match filterMonth ym rest with
          | None => None
          | Some kept => Some (if String.eqb k ym then t :: kept else kept)
          end
      end
  end.

Definition toMonthTxn (categories : list Category.t) (t : Transaction.t) : MonthTxn :=
  mkMonthTxn (Transaction.id t) (Transaction.date t) (Transaction.amount t)
    (Transaction.categoryId t)
    (Category.name
       <$> List.find (fun c => String.eqb (Category.id c) (Transaction.categoryId t))
                     categories)
    (Transaction.notes t).

(** [ym] and [monthTxns] of [onSubmit]; [None] when an exception ends it. *)
Definition monthTxns (transactions : list Transaction.t) (categories : list Category.t)
    (currentMonth : Date) : option (string * list MonthTxn) :=
  match format_yyyy_MM currentMonth with
  | None => None
  | Some ym =>
      match filterMonth ym transactions with
      | None => None
      | Some kept => Some (ym, map (toMonthTxn categories) kept)
      end
  end.

End WithHost.

End AskPage.

(** ** More notions *)

Module Invariants.
Import JS JSNumber Store Notions.

(** Every stored transaction references a stored category. *)
Definition noDangling (state : AppState) : Prop :=
  Forall (fun t => exists c, In c (categories state)
                             /\ Category.id c = Transaction.categoryId t)
         (transactions state).

(** No two stored categories have the same lower-cased name. *)
Definition distinctNames `{Host} (state : AppState) : Prop :=
  NoDup (map (fun c => toLowerCase (Category.name c)) (categories state)).

(** Two partial updates in one: the keys of the second win. *)
Definition mergePatch (p q : PartialTransaction.t) : PartialTransaction.t :=
  PartialTransaction.mk
    (PartialTransaction.id q ∪ PartialTransaction.id p)
    (PartialTransaction.date q ∪ PartialTransaction.date p)
    (PartialTransaction.year q ∪ PartialTransaction.year p)
    (PartialTransaction.month q ∪ PartialTransaction.month p)
    (PartialTransaction.categoryId q ∪ PartialTransaction.categoryId p)
    (PartialTransaction.amount q ∪ PartialTransaction.amount p)
    (PartialTransaction.notes q ∪ PartialTransaction.notes p)
    (PartialTransaction.createdAt q ∪ PartialTransaction.createdAt p).

(** The category id that an action stores in a transaction, if it stores
    one. *)
Definition storedReference (a : Action) : option string :=
  match a with
  | AddTransaction _ transaction => Some (nt_categoryId transaction)
  | UpdateTransaction _ updatedTxn => PartialTransaction.categoryId updatedTxn
  | _ => None
  end.

(** A year far from the ends of the range of [Date] (which are in the years
    -271821 and 275760). *)
Definition nearYear (y : Z) : Prop := -200000 <= y <= 200000.

(** Every stored category has a name of at least one character and a colour
    that passes the pattern of the dialog. *)
Definition wellStyled (state : AppState) : Prop :=
  Forall (fun c => JS.truthy (Category.name c) = true
                   /\ JSText.isHexColor (Category.color c) = true)
         (categories state).

(** Every stored transaction has an amount that is a number not below 0.01
    and references a category id of at least one character. *)
Definition sheetChecked (state : AppState) : Prop :=
  Forall (fun t => isNaN (Transaction.amount t) = false
                   /\ ltb (Transaction.amount t) (decimal 1 2) = false
                   /\ JS.truthy (Transaction.categoryId t) = true)
         (transactions state).

(** Padding [n] to [width] digits gives [width] characters that read as [n]. *)
Definition paddedReadsBack (width : nat) (n : Z) : bool :=
  (String.length (padStart width n) =? width)%nat
  && match digits (padStart width n) with
     | Some k => k =? n
     | None => false
     end.

(** A date in a month of the years 1 to 9999 of local time. *)
Definition fourDigitYear `{Host} (d : Date) : Prop :=
  match localFields d with
  | None => False
  | Some l => 1 <= dt_year l <= 9999
  end.

(** The first day, at midnight, of the month that follows month [m] of year
    [y] by [k] months. *)
Definition monthAfter (y m k : Z) : DateTime :=
  mkDateTime ((12 * y + m + k) / 12) ((12 * y + m + k) mod 12) 1 0.

End Invariants.

(** ** More sample values *)

Module Forms.
Import JS JSNumber DateFns Store Sample.

Definition foodId : string := "cat-1705312800000".
Definition lunchId : string := "txn-1705312801000".

(** The transaction that [withLunch] stores. *)
Definition storedLunch : Transaction.t :=
  Eval vm_compute in nth 0 (transactions withLunch) january15.

(** 15 January 2024, ten in the morning in [kolkata], as a date picker gives
    it. *)
Definition pickedDay : Z := 1705293000000.

Definition dinner : AddExpenseSheet.ExpenseFormValues :=
  AddExpenseSheet.mkExpenseFormValues (ofZ 40) foodId pickedDay (Some (Some "Dinner")).

Definition tea : NewTransaction :=
  mkNewTransaction "2024-01-16" foodId (ofZ 3) None.

(** An expense filed under a category id that every object inherits. *)
Definition misfiled : Transaction.t :=
  expense "txn-501" "2024-01-15" 2024 1 "__proto__" (ofZ 9).


Definition travelRequest : NewCategory := mkNewCategory "Travel" "#4ecdc4" None.

(** What the recogniser made of four on coffee, yesterday. *)
Definition coffee : VoiceRecorder.ParsedExpense :=
  VoiceRecorder.mkParsedExpense (Some (ofZ 4)) (Some " Coffee ") (Some "2024-01-14").

End Forms.

(** * Properties of the calendar *)

Module CalendarProps.
Import JS Notions.

Lemma month_cases (m : Z) :
  0 <= m < 12 ->
  m = 0 \/ m = 1 \/ m = 2 \/ m = 3 \/ m = 4 \/ m = 5 \/ m = 6 \/ m = 7
  \/ m = 8 \/ m = 9 \/ m = 10 \/ m = 11.
Proof. lia. Qed.

Lemma isLeap_spec (y : Z) :
  isLeap y = true <-> (y mod 4 = 0 /\ (y mod 100 <> 0 \/ y mod 400 = 0)).
Proof.
  unfold isLeap.
  rewrite andb_true_iff, orb_true_iff, negb_true_iff, !Z.eqb_eq, Z.eqb_neq.
  reflexivity.
Qed.

Lemma daysInMonth_ge_28 (y m : Z) : 28 <= daysInMonth y m.
Proof.
  unfold daysInMonth.
  destruct (m =? 1); [destruct (isLeap y); lia|].
  destruct ((m =? 3) || (m =? 5) || (m =? 8) || (m =? 10)); lia.
Qed.

Lemma daysInMonth_le_31 (y m : Z) : daysInMonth y m <= 31.
Proof.
  unfold daysInMonth.
  destruct (m =? 1); [destruct (isLeap y); lia|].
  destruct ((m =? 3) || (m =? 5) || (m =? 8) || (m =? 10)); lia.
Qed.

Ltac each_month Hm :=
  match type of Hm with
  | 0 <= ?m < 12 =>
      destruct (month_cases m Hm)
        as [->|[->|[->|[->|[->|[->|[->|[->|[->|[->|[->| ->]]]]]]]]]]]
  end.

Ltac leap_cases y :=
  let L := fresh "L" in
  destruct (isLeap y) eqn:L;
  [ apply isLeap_spec in L
  | assert (~ (y mod 4 = 0 /\ (y mod 100 <> 0 \/ y mod 400 = 0)))
      by (rewrite <- isLeap_spec; congruence) ].

(** The day after a day of the calendar is the day of the next number. *)
Lemma dayOf_nextDay (f : DateTime) :
  onCalendar f -> onCalendar (nextDay f) /\ dayOf (nextDay f) = dayOf f + 1.
Proof.
  destruct f as [y m d ms]. unfold onCalendar, dayOf, nextDay. simpl.
  intros [Hm Hd].
  destruct (d <? daysInMonth y m) eqn:E; simpl.
  - apply Z.ltb_lt in E. split; [lia|]. unfold daysFromCivil. lia.
  - apply Z.ltb_ge in E. assert (d = daysInMonth y m) by lia. subst d. clear E Hd.
    each_month Hm; simpl;
      (split; [split; [lia|]; unfold daysInMonth; simpl; try lia;
               destruct (isLeap _); lia|]);
      unfold daysFromCivil, daysInMonth; simpl;
      try (Z.div_mod_to_equations; lia).
    leap_cases y; Z.div_mod_to_equations; lia.
Qed.

Lemma dayOf_prevDay (f : DateTime) :
  onCalendar f -> onCalendar (prevDay f) /\ dayOf (prevDay f) = dayOf f - 1.
Proof.
  destruct f as [y m d ms]. unfold onCalendar, dayOf, prevDay. simpl.
  intros [Hm Hd].
  destruct (1 <? d) eqn:E; simpl.
  - apply Z.ltb_lt in E. split; [lia|]. unfold daysFromCivil. lia.
  - apply Z.ltb_ge in E. assert (d = 1) by lia. subst d. clear E Hd.
    each_month Hm; simpl;
      (split; [split; [lia|]; unfold daysInMonth; simpl; try lia;
               destruct (isLeap _); lia|]);
      unfold daysFromCivil, daysInMonth; simpl;
      try (Z.div_mod_to_equations; lia).
    leap_cases y; Z.div_mod_to_equations; lia.
Qed.

Lemma nextDay_ms (f : DateTime) : dt_ms (nextDay f) = dt_ms f.
Proof. unfold nextDay. repeat destruct (_ <? _); reflexivity. Qed.

Lemma prevDay_ms (f : DateTime) : dt_ms (prevDay f) = dt_ms f.
Proof. unfold prevDay. repeat destruct (_ <? _); reflexivity. Qed.

Lemma nextDay_prevDay (f : DateTime) : onCalendar f -> nextDay (prevDay f) = f.
Proof.
  destruct f as [y m d ms]. unfold onCalendar, nextDay, prevDay. simpl.
  intros [Hm Hd].
  destruct (1 <? d) eqn:E; simpl.
  - apply Z.ltb_lt in E. destruct (d - 1 <? daysInMonth y m) eqn:E2.
    + f_equal. lia.
    + apply Z.ltb_ge in E2. lia.
  - apply Z.ltb_ge in E. assert (d = 1) by lia. subst d.
    destruct (0 <? m) eqn:E3; simpl.
    + rewrite Z.ltb_irrefl. apply Z.ltb_lt in E3.
      destruct (m - 1 <? 11) eqn:E4; [|apply Z.ltb_ge in E4; lia].
      f_equal. lia.
    + apply Z.ltb_ge in E3. assert (m = 0) by lia. subst m.
      change (daysInMonth (y - 1) 11) with 31. simpl. f_equal. lia.
Qed.

Lemma prevDay_nextDay (f : DateTime) : onCalendar f -> prevDay (nextDay f) = f.
Proof.
  destruct f as [y m d ms]. unfold onCalendar, nextDay, prevDay. simpl.
  intros [Hm Hd].
  destruct (d <? daysInMonth y m) eqn:E; simpl.
  - apply Z.ltb_lt in E. destruct (1 <? d + 1) eqn:E2.
    + f_equal. lia.
    + apply Z.ltb_ge in E2. lia.
  - apply Z.ltb_ge in E. assert (d = daysInMonth y m) by lia.
    destruct (m <? 11) eqn:E3; simpl.
    + apply Z.ltb_lt in E3.
      destruct (0 <? m + 1) eqn:E4; [|apply Z.ltb_ge in E4; lia].
      replace (m + 1 - 1) with m by lia. f_equal. lia.
    + apply Z.ltb_ge in E3. assert (m = 11) by lia. subst m.
      replace (y + 1 - 1) with y by lia. f_equal.
      subst d. reflexivity.
Qed.

Lemma dayOf_zero (f : DateTime) :
  onCalendar f -> dayOf f = 0 -> f = epochDay (dt_ms f).
Proof.
  destruct f as [y m d ms]. unfold onCalendar, dayOf, epochDay. simpl.
  intros [Hm Hd] H.
  pose proof (daysInMonth_le_31 y m) as Hdim.
  assert (y = 1970 /\ m = 0 /\ d = 1) as (-> & -> & ->); [|reflexivity].
  unfold daysFromCivil in H.
  each_month Hm; simpl in H; Z.div_mod_to_equations; lia.
Qed.

Lemma addDays_dayOf (k : Z) (f : DateTime) :
  onCalendar f ->
  onCalendar (addDays k f) /\ dayOf (addDays k f) = dayOf f + k
  /\ dt_ms (addDays k f) = dt_ms f.
Proof.
  intros Hf. unfold addDays. destruct (0 <=? k) eqn:E.
  - apply Z.leb_le in E. rewrite <- (Z2Nat.id k) at 3 by assumption.
    induction (Z.to_nat k) as [|n IH]; simpl.
    + split; [assumption|]. split; [lia|reflexivity].
    + destruct IH as (H1 & H2 & H3). destruct (dayOf_nextDay _ H1) as [H4 H5].
      split; [assumption|]. split; [lia|]. now rewrite nextDay_ms.
  - apply Z.leb_gt in E. replace k with (- Z.of_nat (Z.to_nat (- k))) at 3 by lia.
    induction (Z.to_nat (- k)) as [|n IH]; simpl.
    + split; [assumption|]. split; [lia|reflexivity].
    + destruct IH as (H1 & H2 & H3). destruct (dayOf_prevDay _ H1) as [H4 H5].
      split; [assumption|]. split; [lia|]. now rewrite prevDay_ms.
Qed.

Lemma addDays_epoch (f : DateTime) :
  onCalendar f -> addDays (dayOf f) (epochDay (dt_ms f)) = f.
Proof.
  assert (Hpos : forall n f, onCalendar f -> dayOf f = Z.of_nat n ->
                   Nat.iter n nextDay (epochDay (dt_ms f)) = f).
  { induction n as [|n IH]; intros g Hg Hn.
    - simpl. symmetry. now apply dayOf_zero.
    - destruct (dayOf_prevDay g Hg) as [H1 H2].
      simpl. rewrite <- (prevDay_ms g).
      rewrite IH; [now apply nextDay_prevDay|assumption|lia]. }
  assert (Hneg : forall n f, onCalendar f -> dayOf f = - Z.of_nat n ->
                   Nat.iter n prevDay (epochDay (dt_ms f)) = f).
  { induction n as [|n IH]; intros g Hg Hn.
    - simpl. symmetry. apply dayOf_zero; [assumption|lia].
    - destruct (dayOf_nextDay g Hg) as [H1 H2].
      simpl. rewrite <- (nextDay_ms g).
      rewrite IH; [now apply prevDay_nextDay|assumption|lia]. }
  intros Hf. unfold addDays. destruct (0 <=? dayOf f) eqn:E.
  - apply Z.leb_le in E. apply Hpos; [assumption|lia].
  - apply Z.leb_gt in E. apply Hneg; [assumption|lia].
Qed.

(** The fields of a time value are well formed and give back the time
    value. *)
Lemma fieldsOf_wellFormed (t : Z) :
  wellFormed (fieldsOf t) /\ timeOfFields (fieldsOf t) = t.
Proof.
  unfold fieldsOf.
  assert (He : onCalendar (epochDay (t mod msPerDay))).
  { unfold onCalendar. simpl. change (daysInMonth 1970 0) with 31. lia. }
  destruct (addDays_dayOf (t / msPerDay) _ He) as (H1 & H2 & H3).
  simpl dt_ms in H3.
  assert (Hms : 0 <= t mod msPerDay < msPerDay)
    by (apply Z.mod_pos_bound; unfold msPerDay; lia).
  split.
  - split; [assumption|]. now rewrite H3.
  - unfold timeOfFields, makeDate. rewrite H2, H3.
    change (dayOf (epochDay (t mod msPerDay))) with 0.
    pose proof (Z.div_mod t msPerDay). unfold msPerDay in *. lia.
Qed.

(** Well-formed fields are the fields of their time value. *)
Lemma fieldsOf_timeOfFields (l : DateTime) :
  wellFormed l -> fieldsOf (timeOfFields l) = l.
Proof.
  intros [Hc Hms]. unfold fieldsOf, timeOfFields, makeDate.
  assert (Hd : (dayOf l * msPerDay + dt_ms l) / msPerDay = dayOf l).
  { symmetry. apply (Z.div_unique _ _ _ (dt_ms l)); lia. }
  assert (Hr : (dayOf l * msPerDay + dt_ms l) mod msPerDay = dt_ms l).
  { symmetry. apply (Z.mod_unique _ _ (dayOf l)); lia. }
  rewrite Hd, Hr. now apply addDays_epoch.
Qed.

Lemma month_carry (y m : Z) :
  0 <= m < 12 -> (12 * y + m) / 12 = y /\ (12 * y + m) mod 12 = m.
Proof.
  intros Hm. split.
  - symmetry. apply (Z.div_unique _ _ y m); lia.
  - symmetry. apply (Z.mod_unique _ _ y m); lia.
Qed.

Lemma makeDay_carried (y m d : Z) :
  0 <= m < 12 -> makeDay y m d = daysFromCivil y m d.
Proof.
  intros Hm. unfold makeDay. cbv zeta.
  destruct (month_carry y m Hm) as [-> ->]. unfold daysFromCivil. lia.
Qed.


(** The day numbers of the first days of the months grow with the months, by
    28 to 31 days a month. *)
Lemma daysFromCivil_bound (y m d : Z) :
  0 <= m < 12 -> 1 <= d <= 31 ->
  365 * (y - 1970) - 400 <= daysFromCivil y m d <= 366 * (y - 1970) + 800
  \/ 366 * (y - 1970) - 800 <= daysFromCivil y m d <= 365 * (y - 1970) + 400.
Proof.
  intros Hm Hd. unfold daysFromCivil.
  each_month Hm; simpl; Z.div_mod_to_equations; lia.
Qed.

End CalendarProps.

(** * Properties of the store *)

Module StoreProps.
Import JS DateFns Store Notions CalendarProps.

Section WithHost.
Context {host : Host}.

Lemma negb_eqb_true (a b : string) : negb (String.eqb a b) = true <-> a <> b.
Proof.
  rewrite negb_true_iff. apply String.eqb_neq.
Qed.

Lemma filter_length_lt {A : Type} (f : A -> bool) (l : list A) (x : A) :
  In x l -> f x = false -> (length (List.filter f l) < length l)%nat.
Proof.
  induction l as [|y l IH]; simpl; [tauto|].
  intros [->|Hin] Hx.
  - rewrite Hx. pose proof (List.filter_length_le f l). lia.
  - specialize (IH Hin Hx). destruct (f y); simpl; lia.
Qed.

(** C9.  [deleteCategory(id)] is a total state change with no error to
    report, and it cascades: afterwards the stored categories are exactly the
    former ones with another id, and the stored transactions exactly the former
    ones that reference another category; nothing else in the state changes. *)
Theorem deleteCategory_cascades (id : string) (state : AppState) :
  let state' := deleteCategory id state in
  (forall c, In c (categories state') <->
             In c (categories state) /\ Category.id c <> id)
  /\ (forall t, In t (transactions state') <->
                In t (transactions state) /\ Transaction.categoryId t <> id)
  /\ currentMonth state' = currentMonth state
  /\ addExpenseSheetOpen state' = addExpenseSheetOpen state
  /\ editingTransaction state' = editingTransaction state.
Proof.
  simpl. split; [|split; [|repeat split]].
  - intros c. rewrite filter_In, negb_eqb_true. reflexivity.
  - intros t. rewrite filter_In, negb_eqb_true. reflexivity.
Qed.

(** C1, as the code has it.  When some transaction references [id],
    [deleteCategory(id)] does not fail: it removes the categories with that id
    together with every transaction that references it, so the transactions
    become fewer, and none of what remains carries the id. *)
Theorem deleteCategory_referenced (id : string) (state : AppState) :
  (exists t, In t (transactions state) /\ Transaction.categoryId t = id) ->
  let state' := deleteCategory id state in
  (length (transactions state') < length (transactions state))%nat
  /\ Forall (fun t => Transaction.categoryId t <> id) (transactions state')
  /\ Forall (fun c => Category.id c <> id) (categories state').
Proof.
  intros [t [Hin Hid]]. simpl. repeat split.
  - apply filter_length_lt with (x := t); [assumption|].
    rewrite negb_false_iff. now apply String.eqb_eq.
  - apply List.Forall_forall. intros x Hx. apply filter_In in Hx.
    destruct Hx as [_ Hx]. now apply negb_eqb_true in Hx.
  - apply List.Forall_forall. intros x Hx. apply filter_In in Hx.
    destruct Hx as [_ Hx]. now apply negb_eqb_true in Hx.
Qed.

(** C2, as the code has it.  [addCategory] never fails and never looks at the
    stored names: it returns a category with the requested name and colour,
    the stored categories become the former ones followed by it, and the
    number of stored categories with that name grows by one, whether or not
    the name was stored already. *)
Theorem addCategory_appends (clk : Clock) (category : NewCategory) (state : AppState) :
  let c := fst (addCategory clk category state) in
  let state' := snd (addCategory clk category state) in
  Category.name c = nc_name category
  /\ Category.color c = nc_color category
  /\ categories state' = categories state ++ [c]
  /\ length (named (nc_name category) (categories state'))
     = S (length (named (nc_name category) (categories state)))
  /\ transactions state' = transactions state.
Proof.
  simpl. repeat split.
  unfold named. rewrite List.filter_app, length_app. simpl.
  rewrite String.eqb_refl. simpl. lia.
Qed.

Lemma find_first {A : Type} (f : A -> bool) (l : list A) :
  match List.find f l with
  | Some x => exists before after,
                l = before ++ x :: after /\ f x = true
                /\ Forall (fun y => f y = false) before
  | None => Forall (fun y => f y = false) l
  end.
Proof.
  induction l as [|x l IH]; simpl; [constructor|].
  destruct (f x) eqn:E.
  - exists [], l. repeat split; [assumption|constructor].
  - destruct (List.find f l) as [y|].
    + destruct IH as (before & after & H1 & H2 & H3).
      exists (x :: before), after. repeat split.
      * simpl. now rewrite H1.
      * assumption.
      * now constructor.
    + now constructor.
Qed.

Lemma NoDup_map_eq {A B : Type} (f : A -> B) (l : list A) (a b : A) :
  NoDup (map f l) -> In a l -> In b l -> f a = f b -> a = b.
Proof.
  induction l as [|x l IH]; simpl; [tauto|].
  intros Hnd Ha Hb Hab. apply NoDup_cons in Hnd. destruct Hnd as [Hx Hl].
  assert (Hin : forall c, In c l -> f c <> f x).
  { intros c Hc Heq. apply Hx. apply list_elem_of_In.
    rewrite <- Heq. now apply in_map. }
  destruct Ha as [<-|Ha], Hb as [<-|Hb].
  - reflexivity.
  - exfalso. apply (Hin b Hb). congruence.
  - exfalso. apply (Hin a Ha). congruence.
  - now apply IH.
Qed.

(** C8, as the code has it.  [getCategoryByName] compares the names as
    [toLowerCase] gives them.  For a non-empty query [n] it returns the first
    stored category whose lower-cased name equals the lower-cased query, and
    [undefined] when there is none; an empty or missing query finds nothing.
    So a query that agrees with the name of a stored category [c] up to
    lower-casing is answered, with the first stored category of that
    lower-cased name: with [c] itself when the lower-cased names of the stored
    categories are all different. *)
Theorem getCategoryByName_ignores_case (state : AppState) :
  getCategoryByName None state = None
  /\ getCategoryByName (Some ""%string) state = None
  /\ (forall n, n <> ""%string ->
        match getCategoryByName (Some n) state with
        | Some c =>
            exists before after,
              categories state = before ++ c :: after
              /\ toLowerCase (Category.name c) = toLowerCase n
              /\ Forall (fun c' => toLowerCase (Category.name c') <> toLowerCase n) before
        | None =>
            Forall (fun c' => toLowerCase (Category.name c') <> toLowerCase n)
                   (categories state)
        end)
  /\ (forall n c, n <> ""%string -> In c (categories state) ->
        toLowerCase (Category.name c) = toLowerCase n ->
        exists c', getCategoryByName (Some n) state = Some c'
                   /\ In c' (categories state)
                   /\ toLowerCase (Category.name c') = toLowerCase n
                   /\ (NoDup (map (fun x => toLowerCase (Category.name x))
                                  (categories state)) -> c' = c)).
Proof.
  assert (Hfirst : forall n, n <> ""%string ->
        match getCategoryByName (Some n) state with
        | Some c =>
            exists before after,
              categories state = before ++ c :: after
              /\ toLowerCase (Category.name c) = toLowerCase n
              /\ Forall (fun c' => toLowerCase (Category.name c') <> toLowerCase n) before
        | None =>
            Forall (fun c' => toLowerCase (Category.name c') <> toLowerCase n)
                   (categories state)
        end).
  { intros n Hn. unfold getCategoryByName.
    assert (Ht : truthy n = true) by (destruct n; [congruence|reflexivity]).
    rewrite Ht. cbv zeta.
    pose proof (find_first
      (fun c => String.eqb (toLowerCase (Category.name c)) (toLowerCase n))
      (categories state)) as H.
    destruct (List.find _ (categories state)) as [c|].
    - destruct H as (before & after & H1 & H2 & H3).
      exists before, after. repeat split; [assumption|now apply String.eqb_eq|].
      eapply List.Forall_impl; [|exact H3]. intros a Ha. now apply String.eqb_neq.
    - eapply List.Forall_impl; [|exact H]. intros a Ha. now apply String.eqb_neq. }
  split; [reflexivity|]. split; [reflexivity|]. split; [exact Hfirst|].
  intros n c Hn Hin Hc. specialize (Hfirst n Hn).
  destruct (getCategoryByName (Some n) state) as [c'|].
  - destruct Hfirst as (before & after & H1 & H2 & H3).
    assert (Hin' : In c' (categories state)).
    { rewrite H1. apply in_or_app. right. now left. }
    exists c'. repeat split; try assumption.
    intros Hnd.
    apply (NoDup_map_eq (fun x => toLowerCase (Category.name x)) (categories state));
      try assumption.
    simpl. congruence.
  - exfalso. rewrite List.Forall_forall in Hfirst. now apply (Hfirst c Hin).
Qed.

(** An update that supplies only [date] stores the new date next to the old
    [year] and [month]. *)
Lemma spread_date_keeps_bucket (t : Transaction.t) (d : string) :
  let t' := spread t (PartialTransaction.mk None (Some d) None None None None None None) in
  Transaction.date t' = d
  /\ Transaction.year t' = Transaction.year t
  /\ Transaction.month t' = Transaction.month t
  /\ yearMonth t' = yearMonth t.
Proof.
  repeat split.
Qed.

(** With a date given, the [year] and [month] that [addTransaction] stores
    are those of the stored date. *)
Lemma newTxn_derivedFromDate (clk : Clock) (transaction : NewTransaction) :
  truthy (nt_date transaction) = true ->
  derivedFromDate (newTxn clk transaction).
Proof.
  intros Hd. unfold derivedFromDate, newTxn, dateOrNow. simpl.
  rewrite Hd. split; reflexivity.
Qed.

(** C4, as the code has it.  An update that supplies only [notes] replaces
    the notes of the transactions with that id and nothing else: [amount],
    [categoryId] and [date] are kept, and so is [createdAt], the only time
    stamp a transaction has (nothing is refreshed); transactions with another
    id, the categories and the month shown are unchanged. *)
Theorem updateTransaction_notes_only (id : string) (n : option string) (state : AppState) :
  let patch := PartialTransaction.mk None None None None None None (Some n) None in
  let state' := updateTransaction id patch state in
  Forall2 (fun t t' =>
             (Transaction.id t = id ->
                t' = withNotes n t
                /\ Transaction.amount t' = Transaction.amount t
                /\ Transaction.categoryId t' = Transaction.categoryId t
                /\ Transaction.date t' = Transaction.date t
                /\ Transaction.createdAt t' = Transaction.createdAt t)
             /\ (Transaction.id t <> id -> t' = t))
          (transactions state) (transactions state')
  /\ categories state' = categories state
  /\ currentMonth state' = currentMonth state.
Proof.
  simpl. repeat split.
  induction (transactions state) as [|t l IH]; simpl; constructor; [|assumption].
  destruct (String.eqb (Transaction.id t) id) eqn:E.
  - split; [|intros H; apply String.eqb_eq in E; contradiction].
    intros _. repeat split.
  - split; [intros H; apply String.eqb_neq in E; contradiction|reflexivity].
Qed.

End WithHost.

Import Sample.

(** C1 on a sample: the category of the stored lunch is deleted although the
    lunch references it, and both collections change (they become empty). *)
Lemma deleteCategory_referenced_changes_store :
  let id := "cat-1705312800000"%string in
  (exists t, In t (transactions withLunch) /\ Transaction.categoryId t = id)
  /\ categories (deleteCategory id withLunch) = []
  /\ transactions (deleteCategory id withLunch) = []
  /\ categories (deleteCategory id withLunch) <> categories withLunch
  /\ transactions (deleteCategory id withLunch) <> transactions withLunch.
Proof.
  cbv zeta. split.
  - eexists. split; [left; reflexivity|reflexivity].
  - repeat split; vm_compute; discriminate.
Qed.

(** The sample with the lunch is a state in which a transaction references
    the category that is deleted. *)
Lemma deleteCategory_referenced_witness :
  (length (transactions (deleteCategory "cat-1705312800000" withLunch))
   < length (transactions withLunch))%nat
  /\ Forall (fun t => Transaction.categoryId t <> "cat-1705312800000"%string)
            (transactions (deleteCategory "cat-1705312800000" withLunch))
  /\ Forall (fun c => Category.id c <> "cat-1705312800000"%string)
            (categories (deleteCategory "cat-1705312800000" withLunch)).
Proof.
  apply (deleteCategory_referenced "cat-1705312800000" withLunch).
  eexists. split; [left; reflexivity|reflexivity].
Defined.

(** C2 on a sample: a second category named Food is stored next to the
    first, in a state that the store reaches by two calls of [addCategory]. *)
Lemma addCategory_duplicate_name :
  @reachable kolkata withFoodTwice
  /\ map Category.name (categories withFood) = ["Food"%string]
  /\ map Category.name (categories withFoodTwice) = ["Food"%string; "Food"%string]
  /\ categories withFoodTwice <> categories withFood
  /\ ~ NoDup (map Category.name (categories withFoodTwice)).
Proof.
  split; [|split; [|split; [|split]]].
  - replace withFoodTwice
      with (@perform kolkata (AddCategory clock2 food)
              (@perform kolkata (AddCategory clock1 food)
                 (@initialState kolkata 1705312800000)))
      by (vm_compute; reflexivity).
    do 2 apply reachable_step. apply reachable_init.
  - reflexivity.
  - reflexivity.
  - vm_compute. discriminate.
  - change (map Category.name (categories withFoodTwice))
      with ["Food"%string; "Food"%string].
    intros H. apply NoDup_cons_1_1 in H. apply H. left.
Qed.

(** C8 on a sample: the query food, in lower case, finds the category whose
    name is Food. *)
Lemma getCategoryByName_finds_other_case :
  exists c, @getCategoryByName kolkata (Some "food"%string) withFood = Some c
            /\ Category.name c = "Food"%string
            /\ Category.name c <> "food"%string.
Proof.
  eexists. split; [vm_compute; reflexivity|]. split; [reflexivity|]. simpl. discriminate.
Qed.

(** With FOOD stored before food, the query Food finds FOOD, the first of the
    two, and the query food does not find the category of that very name. *)
Example getCategoryByName_finds_first :
  let state :=
    snd (addCategory clock2 (mkNewCategory "food" "#00ff00" None)
           (snd (addCategory clock1 (mkNewCategory "FOOD" "#ff0000" None) start))) in
  map Category.name (categories state) = ["FOOD"%string; "food"%string]
  /\ Category.name <$> @getCategoryByName kolkata (Some "Food"%string) state
     = Some "FOOD"%string
  /\ Category.name <$> @getCategoryByName kolkata (Some "food"%string) state
     = Some "FOOD"%string.
Proof.
  cbv zeta. repeat split; vm_compute; reflexivity.
Qed.

(** C4 on a sample: the lunch, created at 10:00:01, gets new notes; the
    record afterwards differs in its notes only, and its one time stamp still
    shows the creation. *)
Lemma updateTransaction_no_timestamp :
  transactions (updateTransaction "txn-1705312801000" (notesOnly (Some "Dinner"%string)) withLunch)
  = [Transaction.mk "txn-1705312801000" "2024-01-15" (Some 2024) (Some 1)
       "cat-1705312800000" (JSNumber.decimal 255 1) (Some "Dinner"%string)
       "2024-01-15T10:00:01.000Z"]
  /\ map Transaction.createdAt
         (transactions (updateTransaction "txn-1705312801000"
                          (notesOnly (Some "Dinner"%string)) withLunch))
     = map Transaction.createdAt (transactions withLunch).
Proof.
  split; vm_compute; reflexivity.
Qed.

(** C3 on a sample.  The lunch is stored with the date 2024-01-15 and the
    bucket 2024-01.  After an update that changes the date to 2024-02-20 the
    record holds the new date and still the bucket 2024-01: [updateTransaction]
    spreads the supplied fields over the record and derives nothing. *)
Lemma updateTransaction_keeps_old_month :
  let updated :=
    updateTransaction "txn-1705312801000" (dateOnly "2024-02-20") withLunch in
  Forall bucketConsistent (transactions withLunch)
  /\ map Transaction.date (transactions updated) = ["2024-02-20"%string]
  /\ map yearMonth (transactions updated) = [Some "2024-01"%string]
  /\ ~ Forall bucketConsistent (transactions updated).
Proof.
  cbv zeta. split; [|split; [|split]].
  - repeat constructor.
  - reflexivity.
  - reflexivity.
  - intros H. apply Forall_inv in H. vm_compute in H. discriminate.
Qed.

(** On a host west of UTC the bucket is wrong from the start for the first
    day of a month: [new Date("2024-03-01")] is midnight UTC, which is still
    February 29 in local time. *)
Lemma addTransaction_west_of_utc :
  let t := @newTxn newYork clock1 (mkNewTransaction "2024-03-01" "c" (JSNumber.ofZ 1) None) in
  Transaction.date t = "2024-03-01"%string /\ yearMonth t = Some "2024-02"%string.
Proof.
  split; vm_compute; reflexivity.
Qed.

End StoreProps.

(** * The month shown *)

Module MonthProps.
Import JS DateFns Store Notions CalendarProps.



Lemma wellFormed_first (y m : Z) : 0 <= m < 12 -> wellFormed (mkDateTime y m 1 0).
Proof.
  intros Hm. unfold wellFormed, onCalendar. cbn [dt_year dt_month dt_day dt_ms].
  pose proof (daysInMonth_ge_28 y m). unfold msPerDay. lia.
Qed.

Lemma localFields_valid `{Host} (t : Z) :
  localFields (ValidDate t) = Some (fieldsOf (localTime t)).
Proof. reflexivity. Qed.

Section FixedOffset.
Context {host : Host}.
Variable off : Z.
Hypothesis Hoff : fixedOffset off.

Lemma localTime_fixed (t : Z) : localTime t = t + off.
Proof. unfold localTime. now rewrite Hoff. Qed.

Lemma utc_fixed (t : Z) : utc t = t - off.
Proof. unfold utc. now rewrite Hoff. Qed.

(** The local fields of the start of a month. *)
Lemma fields_monthStartTime (y m : Z) :
  0 <= m < 12 ->
  fieldsOf (localTime (monthStartTime off y m)) = mkDateTime y m 1 0.
Proof.
  intros Hm. rewrite localTime_fixed. unfold monthStartTime.
  replace (makeDate (daysFromCivil y m 1) 0 - off + off)
    with (timeOfFields (mkDateTime y m 1 0))
    by (unfold timeOfFields, dayOf; cbn [dt_year dt_month dt_day dt_ms]; lia).
  apply fieldsOf_timeOfFields. now apply wellFormed_first.
Qed.








End FixedOffset.


Import Sample.

Lemma kolkata_fixedOffset : @fixedOffset kolkata 19800000.
Proof. intros t isUTC. reflexivity. Defined.



End MonthProps.

(** * Properties of digits and substrings *)

Module TextProps.
Import JS.

Lemma digitVal_range (c : ascii) : isDigit c = true -> 0 <= digitVal c <= 9.
Proof.
  unfold isDigit, digitVal. intros H. apply andb_true_iff in H.
  destruct H as [H1 H2]. apply Nat.leb_le in H1, H2. lia.
Qed.

Lemma digitsFrom_bound (s : string) (acc n : Z) :
  0 <= acc -> digitsFrom acc s = Some n ->
  acc * 10 ^ Z.of_nat (String.length s) <= n
  < (acc + 1) * 10 ^ Z.of_nat (String.length s).
Proof.
  revert acc. induction s as [|c r IH]; intros acc Hacc H; simpl in H.
  - inversion H. simpl. lia.
  - destruct (isDigit c) eqn:Ec; [|discriminate].
    pose proof (digitVal_range c Ec) as Hv.
    apply IH in H; [|lia].
    change (String.length (String c r)) with (S (String.length r)).
    rewrite Nat2Z.inj_succ, Z.pow_succ_r by lia.
    assert (Hp : 0 < 10 ^ Z.of_nat (String.length r)) by (apply Z.pow_pos_nonneg; lia).
    nia.
Qed.

Lemma substring_length (n m : nat) (s : string) :
  (n + m <= String.length s)%nat -> String.length (String.substring n m s) = m.
Proof.
  revert s m. induction n as [|n IH]; intros s m H.
  - revert s H. induction m as [|m IHm]; intros s H.
    + now destruct s.
    + destruct s as [|c r]; simpl in *; [lia|]. rewrite IHm; [reflexivity|lia].
  - destruct s as [|c r]; simpl in *; [lia|]. apply IH. lia.
Qed.

Lemma digits_bound (s : string) (n : Z) :
  digits s = Some n -> 0 <= n < 10 ^ Z.of_nat (String.length s).
Proof.
  unfold digits. destruct s as [|c r]; [discriminate|].
  intros H. apply digitsFrom_bound in H; lia.
Qed.

(** The year of a string of the shape YYYY-MM-DD has four digits. *)
Lemma splitYMD_year (s : string) (y m d : Z) :
  splitYMD s = Some (y, m, d) -> 0 <= y <= 9999.
Proof.
  unfold splitYMD.
  destruct ((String.length s =? 10)%nat && String.eqb (String.substring 4 1 s) "-"
            && String.eqb (String.substring 7 1 s) "-") eqn:Eshape; [|discriminate].
  apply andb_true_iff in Eshape. destruct Eshape as [Eshape _].
  apply andb_true_iff in Eshape. destruct Eshape as [El _].
  apply Nat.eqb_eq in El.
  destruct (digits (String.substring 0 4 s)) as [y'|] eqn:Dy; [|discriminate].
  destruct (digits (String.substring 5 2 s)) as [m'|]; [|discriminate].
  destruct (digits (String.substring 8 2 s)) as [d'|]; [|discriminate].
  intros H. inversion H; subst.
  apply digits_bound in Dy. rewrite substring_length in Dy by lia.
  change (10 ^ Z.of_nat 4) with 10000 in Dy. lia.
Qed.

End TextProps.

(** * Properties of the pages *)

Module PageProps.
Import JS DateFns Store Notions CalendarProps.

Section Sorting.
Context {A : Type}.
Variable compareFn : A -> A -> comparison.

Lemma insert_perm (x : A) (l : list A) :
  Permutation (JSArray.insert compareFn x l) (x :: l).
Proof.
  induction l as [|y r IH]; simpl; [reflexivity|].
  destruct (compareFn x y); try reflexivity.
  rewrite IH. apply perm_swap.
Qed.

Lemma sort_perm (l : list A) : Permutation (JSArray.sort compareFn l) l.
Proof.
  induction l as [|x r IH]; simpl; [reflexivity|].
  rewrite insert_perm. now apply perm_skip.
Qed.

(** The sort is stable: elements that the comparator does not put after one
    another keep their order. *)
Lemma insert_stable (P : A -> bool) (x : A) (l : list A) :
  (forall a b, P a = true -> P b = true -> compareFn a b <> Gt) ->
  List.filter P (JSArray.insert compareFn x l) = List.filter P (x :: l).
Proof.
  intros H. induction l as [|y r IH]; [reflexivity|].
  simpl JSArray.insert.
  destruct (compareFn x y) eqn:E; try reflexivity.
  simpl. simpl in IH. rewrite IH.
  destruct (P x) eqn:Px, (P y) eqn:Py; try reflexivity.
  exfalso. now apply (H x y).
Qed.

Lemma sort_stable (P : A -> bool) (l : list A) :
  (forall a b, P a = true -> P b = true -> compareFn a b <> Gt) ->
  List.filter P (JSArray.sort compareFn l) = List.filter P l.
Proof.
  intros H. induction l as [|x r IH]; [reflexivity|].
  simpl JSArray.sort. rewrite insert_stable by assumption.
  simpl. now rewrite IH.
Qed.

Lemma sort_of_sorted (R : A -> A -> Prop) (l : list A) :
  (forall a b, R a b -> compareFn a b <> Gt) ->
  StronglySorted R l -> JSArray.sort compareFn l = l.
Proof.
  intros H Hs. induction Hs as [|x r Hs IH Hall]; [reflexivity|].
  simpl. rewrite IH. destruct r as [|y r']; [reflexivity|].
  simpl. apply Forall_inv in Hall. apply H in Hall.
  destruct (compareFn x y); congruence.
Qed.

(** What a comparator must do on the elements that satisfy [P] for the
    result to be ordered by [R]. *)
Variable P : A -> Prop.
Variable R : A -> A -> Prop.
Hypothesis R_trans : forall x y z, P x -> P y -> P z -> R x y -> R y z -> R x z.
Hypothesis not_Gt : forall x y, P x -> P y -> compareFn x y <> Gt -> R x y.
Hypothesis is_Gt : forall x y, P x -> P y -> compareFn x y = Gt -> R y x.

Lemma insert_sorted (x : A) (l : list A) :
  P x -> Forall P l -> StronglySorted R l ->
  StronglySorted R (JSArray.insert compareFn x l).
Proof.
  intros Hx Hl Hs. induction l as [|y r IH]; simpl.
  - repeat constructor.
  - apply Forall_cons_1 in Hl. destruct Hl as [Hy Hr].
    apply StronglySorted_inv in Hs. destruct Hs as [Hs Hyr].
    assert (Hbefore : compareFn x y <> Gt -> StronglySorted R (x :: y :: r)).
    { intros Hc. constructor; [constructor; assumption|].
      constructor; [now apply not_Gt|].
      rewrite List.Forall_forall in Hyr, Hr. apply List.Forall_forall.
      intros z Hz. apply R_trans with y; auto. }
    destruct (compareFn x y) eqn:E; try (apply Hbefore; congruence).
    constructor; [now apply IH|].
    apply (Permutation_Forall (Permutation_sym (insert_perm x r))).
    constructor; [now apply is_Gt|assumption].
Qed.

Lemma sort_sorted (l : list A) :
  Forall P l -> StronglySorted R (JSArray.sort compareFn l).
Proof.
  induction l as [|x r IH]; simpl; intros Hl; [constructor|].
  apply Forall_cons_1 in Hl. destruct Hl as [Hx Hr].
  apply insert_sorted; [assumption| |now apply IH].
  now apply (Permutation_Forall (Permutation_sym (sort_perm r))).
Qed.

End Sorting.


Lemma filter_partition_perm {A : Type} (f : A -> bool) (l : list A) :
  Permutation (List.filter f l ++ List.filter (fun x => negb (f x)) l) l.
Proof.
  induction l as [|x r IH]; simpl; [reflexivity|].
  destruct (f x); simpl.
  - now apply perm_skip.
  - rewrite <- Permutation_middle. now apply perm_skip.
Qed.

Section WithHost.
Context {host : Host}.

Lemma isSameMonth_sameLocalMonth (a b : Date) :
  isSameMonth a b = true <-> sameLocalMonth a b.
Proof.
  unfold isSameMonth, sameLocalMonth, monthKey.
  destruct (localFields a) as [x|], (localFields b) as [y|]; simpl;
    try (split; [discriminate|intros [k [H1 H2]]; discriminate]).
  rewrite andb_true_iff, !Z.eqb_eq. split.
  - intros [H1 H2]. eexists. split; [reflexivity|]. now rewrite H1, H2.
  - intros [k [H1 H2]]. inversion H1; subst. inversion H2. lia.
Qed.

Lemma notEarlier_trans (x y z : Transaction.t) :
  notEarlier x y -> notEarlier y z -> notEarlier x z.
Proof.
  intros (ta & tb & Ha & Hb & Hab) (tb' & tc & Hb' & Hc & Hbc).
  rewrite Hb in Hb'. inversion Hb'; subst tb'.
  exists ta, tc. repeat split; try assumption. lia.
Qed.

Lemma month_list_sorted (transactions : list Transaction.t) (currentMonth : Date) :
  StronglySorted notEarlier
    (TransactionsPage.filteredTransactions transactions currentMonth).
Proof.
  unfold TransactionsPage.filteredTransactions.
  apply sort_sorted with (P := fun t => exists v, dateTime t = Some v).
  - intros x y z _ _ _. apply notEarlier_trans.
  - intros x y [vx Hx] [vy Hy] Hc. exists vx, vy. repeat split; try assumption.
    unfold TransactionsPage.byDateDesc in Hc. unfold dateTime in Hx, Hy.
    rewrite Hx, Hy in Hc. destruct (Z.compare_spec (vy - vx) 0); try lia. congruence.
  - intros x y [vx Hx] [vy Hy] Hc. exists vy, vx. repeat split; try assumption.
    unfold TransactionsPage.byDateDesc in Hc. unfold dateTime in Hx, Hy.
    rewrite Hx, Hy in Hc. apply Z.compare_gt_iff in Hc. lia.
  - apply List.Forall_forall. intros t Ht. apply filter_In in Ht.
    destruct Ht as [_ Ht]. unfold dateTime.
    apply isSameMonth_sameLocalMonth in Ht. destruct Ht as (k & Hk & _).
    unfold monthKey, localFields in Hk.
    destruct (newDate (Transaction.date t)); [discriminate|]. simpl. eauto.
Qed.

Lemma month_list_stable (transactions : list Transaction.t)
    (currentMonth : Date) (v : option Z) :
  atTime v (TransactionsPage.filteredTransactions transactions currentMonth)
  = atTime v (List.filter
                (fun t => isSameMonth (newDate (Transaction.date t)) currentMonth)
                transactions).
Proof.
  unfold atTime, TransactionsPage.filteredTransactions. apply sort_stable.
  intros a b Ha Hb. apply bool_decide_eq_true in Ha, Hb.
  unfold TransactionsPage.byDateDesc. unfold dateTime in Ha, Hb. rewrite Ha, Hb.
  destruct v as [t|]; [|discriminate]. rewrite Z.sub_diag. discriminate.
Qed.

(** On a host at a fixed offset east of UTC (or at UTC), a calendar date
    written YYYY-MM-DD is read as a time of that very day. *)
Lemma newDate_calendar (off : Z) (s : string) (y m d : Z) :
  fixedOffset off -> 0 <= off < msPerDay ->
  splitYMD s = Some (y, m, d) ->
  1 <= m <= 12 -> 1 <= d <= daysInMonth y (m - 1) ->
  localFields (newDate s) = Some (mkDateTime y (m - 1) d off).
Proof.
  intros Hoff Ho Hs Hm Hd. unfold newDate. rewrite Hs.
  assert (E : (1 <=? m) && (m <=? 12) && (1 <=? d) && (d <=? daysInMonth y (m - 1)) = true).
  { repeat (apply andb_true_iff; split); apply Z.leb_le; lia. }
  rewrite E. rewrite makeDay_carried by lia.
  pose proof (TextProps.splitYMD_year s y m d Hs) as Hy.
  pose proof (daysInMonth_le_31 y (m - 1)) as H31.
  assert (Hr : timeClip (makeDate (daysFromCivil y (m - 1) d) 0)
               = ValidDate (makeDate (daysFromCivil y (m - 1) d) 0)).
  { unfold timeClip.
    destruct (Z.leb_spec (Z.abs (makeDate (daysFromCivil y (m - 1) d) 0)) maxTime) as [|H];
      [reflexivity|exfalso].
    unfold makeDate, maxTime, msPerDay in H.
    destruct (daysFromCivil_bound y (m - 1) d ltac:(lia) ltac:(lia)); lia. }
  rewrite Hr. unfold localFields, localTime. rewrite Hoff. f_equal.
  replace (makeDate (daysFromCivil y (m - 1) d) 0 + off)
    with (timeOfFields (mkDateTime y (m - 1) d off))
    by (unfold timeOfFields, dayOf, makeDate; cbn [dt_year dt_month dt_day dt_ms]; lia).
  apply fieldsOf_timeOfFields. unfold wellFormed, onCalendar.
  cbn [dt_year dt_month dt_day dt_ms]. lia.
Qed.


End WithHost.

Import Sample.

(** The January list of the sample: the 20th before the 15th, February left
    out. *)
Example filteredTransactions_january :
  @TransactionsPage.filteredTransactions kolkata expenses january
  = [january20; january15].
Proof. vm_compute. reflexivity. Qed.

(** West of UTC the date 2024-03-01, read as midnight UTC, is a time of the
    evening of 29 February: the expense dated the first of March is listed
    for February. *)
Example filteredTransactions_west_of_utc :
  @monthKey newYork februaryWest = Some (2024, 2)
  /\ @TransactionsPage.filteredTransactions newYork [marchFirst] februaryWest
     = [marchFirst].
Proof. split; vm_compute; reflexivity. Qed.


End PageProps.

Module DashboardProps.
Import JS JSNumber DateFns Notions DashboardPage CalendarProps.

(** ** The object of the subtotals *)

Lemma get_setOwn_eq (o : JSObject.t) (k : string) (v : JSObject.Value) :
  JSObject.get (JSObject.setOwn o k v) k = JSObject.Own v.
Proof.
  unfold JSObject.get. induction o as [|e r IH]; simpl.
  - now rewrite String.eqb_refl.
  - destruct (String.eqb (fst e) k) eqn:E; simpl.
    + now rewrite String.eqb_refl.
    + now rewrite E.
Qed.

Lemma get_setOwn_ne (o : JSObject.t) (k k' : string) (v : JSObject.Value) :
  k <> k' -> JSObject.get (JSObject.setOwn o k v) k' = JSObject.get o k'.
Proof.
  intros Hne. unfold JSObject.get. induction o as [|e r IH]; simpl.
  - apply String.eqb_neq in Hne. now rewrite Hne.
  - destruct (String.eqb (fst e) k) eqn:E; simpl.
    + apply String.eqb_eq in E. rewrite E.
      apply String.eqb_neq in Hne. now rewrite Hne.
    + destruct (String.eqb (fst e) k'); [reflexivity|exact IH].
Qed.

Lemma get_set_eq (o : JSObject.t) (k : string) (v : JSObject.Value) :
  k <> "__proto__"%string -> JSObject.get (JSObject.set o k v) k = JSObject.Own v.
Proof.
  intros Hk. unfold JSObject.set. apply String.eqb_neq in Hk. rewrite Hk.
  apply get_setOwn_eq.
Qed.

Lemma get_set_ne (o : JSObject.t) (k k' : string) (v : JSObject.Value) :
  k <> k' -> JSObject.get (JSObject.set o k v) k' = JSObject.get o k'.
Proof.
  intros Hne. unfold JSObject.set.
  destruct (String.eqb k "__proto__"); [reflexivity|now apply get_setOwn_ne].
Qed.

Lemma setOwn_keys (o : JSObject.t) (k : string) (v : JSObject.Value) :
  map fst (JSObject.setOwn o k v)
  = if existsb (String.eqb k) (map fst o) then map fst o else map fst o ++ [k].
Proof.
  induction o as [|e r IH]; simpl; [reflexivity|].
  rewrite (String.eqb_sym k (fst e)).
  destruct (String.eqb (fst e) k) eqn:E; simpl.
  - apply String.eqb_eq in E. now rewrite E.
  - rewrite IH. now destruct (existsb _ _).
Qed.

Lemma set_NoDup (o : JSObject.t) (k : string) (v : JSObject.Value) :
  NoDup (map fst o) -> NoDup (map fst (JSObject.set o k v)).
Proof.
  intros H. unfold JSObject.set.
  destruct (String.eqb k "__proto__"); [assumption|].
  rewrite setOwn_keys.
  destruct (existsb (String.eqb k) (map fst o)) eqn:E; [assumption|].
  apply NoDup_app. split; [assumption|]. split.
  - intros x Hx Hk. apply list_elem_of_In in Hx, Hk. destruct Hk as [<-|[]].
    assert (Ht : existsb (String.eqb k) (map fst o) = true).
    { apply existsb_exists. exists k. split; [assumption|apply String.eqb_refl]. }
    congruence.
  - repeat constructor. intros Hin. inversion Hin.
Qed.

Lemma categoryTotals_NoDup (l : list Transaction.t) (o : JSObject.t) :
  NoDup (map fst o) -> NoDup (map fst (fold_left addToCategory l o)).
Proof.
  revert o. induction l as [|t r IH]; intros o Ho; simpl; [assumption|].
  apply IH. now apply set_NoDup.
Qed.

Lemma get_In (o : JSObject.t) (k : string) (v : JSObject.Value) :
  NoDup (map fst o) -> (JSObject.get o k = JSObject.Own v <-> In (k, v) o).
Proof.
  unfold JSObject.get. induction o as [|[k' v'] r IH]; simpl; intros Hnd.
  - split; [destruct (JSObject.inherited k); discriminate|tauto].
  - apply NoDup_cons in Hnd. destruct Hnd as [Hk' Hr].
    destruct (String.eqb k' k) eqn:E.
    + apply String.eqb_eq in E. subst k'. simpl. split.
      * intros H. inversion H. now left.
      * intros [H|H]; [now inversion H|].
        exfalso. apply Hk'. apply list_elem_of_In.
        apply in_map_iff. exists (k, v). auto.
    + rewrite (IH Hr). split; [tauto|].
      intros [H|H]; [|assumption]. inversion H. subst.
      rewrite String.eqb_refl in E. discriminate.
Qed.

Lemma entries_perm (o : JSObject.t) : Permutation (JSObject.entries o) o.
Proof.
  unfold JSObject.entries. rewrite PageProps.sort_perm.
  apply PageProps.filter_partition_perm.
Qed.

(** What the [forEach] leaves under the key [c]: what was there, taken over
    the transactions of the category [c] one after the other. *)
Lemma fold_get (l : list Transaction.t) (o : JSObject.t) (c : string) :
  c <> "__proto__"%string ->
  JSObject.get (fold_left addToCategory l o) c
  = match ofCategory c l with
    | [] => JSObject.get o c
    | t :: r =>
        JSObject.Own
          (fold_left (fun acc u => JSObject.plus (JSObject.orZero (JSObject.Own acc))
                                                 (Transaction.amount u))
                     r
                     (JSObject.plus (JSObject.orZero (JSObject.get o c))
                                    (Transaction.amount t)))
    end.
Proof.
  intros Hc. revert o. induction l as [|t r IH]; intros o; [reflexivity|].
  simpl fold_left. rewrite IH. unfold ofCategory. simpl List.filter.
  fold (ofCategory c r). unfold addToCategory.
  destruct (String.eqb (Transaction.categoryId t) c) eqn:E.
  - apply String.eqb_eq in E. rewrite E, get_set_eq by assumption.
    destruct (ofCategory c r); reflexivity.
  - apply String.eqb_neq in E. rewrite get_set_ne by assumption. reflexivity.
Qed.

Lemma fold_get_proto (l : list Transaction.t) (o : JSObject.t) :
  JSObject.get (fold_left addToCategory l o) "__proto__" = JSObject.get o "__proto__".
Proof.
  revert o. induction l as [|t r IH]; intros o; [reflexivity|].
  simpl fold_left. rewrite IH. unfold addToCategory.
  destruct (String.eqb (Transaction.categoryId t) "__proto__") eqn:E.
  - apply String.eqb_eq in E. rewrite E. unfold JSObject.set. now rewrite String.eqb_refl.
  - apply String.eqb_neq in E. now apply get_set_ne.
Qed.

Lemma accumulate_numbers (l : list Transaction.t) (x : number) :
  fold_left (fun acc u => JSObject.plus (JSObject.orZero (JSObject.Own acc))
                                         (Transaction.amount u))
            l (JSObject.Num x)
  = JSObject.Num
      (fold_left (fun acc n => add (if truthy acc then acc else zero) n)
                 (map Transaction.amount l) x).
Proof.
  revert x. induction l as [|t r IH]; intros x; [reflexivity|].
  simpl. destruct (truthy x); simpl; apply IH.
Qed.

Lemma accumulate_text (l : list Transaction.t) :
  fold_left (fun acc u => JSObject.plus (JSObject.orZero (JSObject.Own acc))
                                         (Transaction.amount u))
            l JSObject.Text
  = JSObject.Text.
Proof. induction l as [|t r IH]; [reflexivity|exact IH]. Qed.

Lemma inherited_proto : JSObject.inherited "__proto__" = true.
Proof. reflexivity. Qed.

(** The entry of a category in the object of the subtotals. *)
Lemma categoryTotals_get (filtered : list Transaction.t) (c : string) :
  JSObject.get (categoryTotals filtered) c
  = if String.eqb c "__proto__" then JSObject.Inherited
    else match ofCategory c filtered with
         | [] => if JSObject.inherited c then JSObject.Inherited else JSObject.Missing
         | l => if JSObject.inherited c then JSObject.Own JSObject.Text
                else JSObject.Own (JSObject.Num (subtotal l))
         end.
Proof.
  unfold categoryTotals. destruct (String.eqb c "__proto__") eqn:Ep.
  - apply String.eqb_eq in Ep. subst c. now rewrite fold_get_proto.
  - apply String.eqb_neq in Ep. rewrite fold_get by assumption.
    destruct (ofCategory c filtered) as [|t r]; [reflexivity|].
    unfold JSObject.get at 1. simpl List.find.
    destruct (JSObject.inherited c).
    + simpl JSObject.orZero. simpl JSObject.plus. now rewrite accumulate_text.
    + simpl JSObject.orZero. simpl JSObject.plus. rewrite accumulate_numbers.
      reflexivity.
Qed.

Lemma ofCategory_nonempty (t : Transaction.t) (l : list Transaction.t) :
  In t l -> ofCategory (Transaction.categoryId t) l <> [].
Proof.
  intros Hin Hnil.
  assert (H : In t (ofCategory (Transaction.categoryId t) l)).
  { apply filter_In. split; [assumption|apply String.eqb_refl]. }
  rewrite Hnil in H. exact H.
Qed.

Lemma ofCategory_In (c : string) (l : list Transaction.t) :
  ofCategory c l <> [] -> exists t, In t l /\ Transaction.categoryId t = c.
Proof.
  intros H. destruct (ofCategory c l) as [|t r] eqn:E; [congruence|].
  assert (Hin : In t (ofCategory c l)) by (rewrite E; now left).
  apply filter_In in Hin. destruct Hin as [Hin Hc].
  exists t. split; [assumption|now apply String.eqb_eq].
Qed.

(** ** The total *)


(** ** The top category *)

(** With a consistent comparator, the first element after the sort is one
    that the comparator puts after no other. *)
Lemma sorted_head_first (es : list (string * JSObject.Value)) :
  consistent difference es ->
  match head (JSArray.sort byTotalDesc es) with
  | Some e => In e es /\ forall e', In e' es -> byTotalDesc e e' <> Gt
  | None => es = []
  end.
Proof.
  intros Hc.
  pose proof (PageProps.sort_perm byTotalDesc es) as Hp.
  assert (Hs : StronglySorted (fun a b => byTotalDesc a b <> Gt)
                 (JSArray.sort byTotalDesc es)).
  { apply PageProps.sort_sorted with (P := fun e => In e es).
    - intros x y z Hx Hy Hz. destruct (Hc x y Hx Hy) as (_ & _ & Ht). now apply Ht.
    - auto.
    - intros x y Hx Hy Hgt. destruct (Hc x y Hx Hy) as (_ & Hopp & _).
      unfold byTotalDesc in *. rewrite Hopp, Hgt. discriminate.
    - apply List.Forall_forall. auto. }
  destruct (JSArray.sort byTotalDesc es) as [|e r]; simpl.
  - now apply Permutation_nil.
  - split; [apply (Permutation_in _ Hp); now left|].
    intros e' He'. apply (Permutation_in _ (Permutation_sym Hp)) in He'.
    apply StronglySorted_inv in Hs. destruct Hs as [_ Hall].
    destruct He' as [<-|He'].
    + assert (Hin : In e es) by (apply (Permutation_in _ Hp); now left).
      destruct (Hc e e Hin Hin) as (_ & Hopp & _).
      unfold byTotalDesc. destruct (signOf (difference e e)); simpl in Hopp; congruence.
    + rewrite List.Forall_forall in Hall. now apply Hall.
Qed.

Lemma topCategory_first (filtered : list Transaction.t) (categories : list Category.t) :
  consistent difference (JSObject.entries (categoryTotals filtered)) ->
  (exists t, In t filtered /\ Transaction.categoryId t <> "__proto__"%string) ->
  exists id,
    ofCategory id filtered <> []
    /\ JSObject.inherited id = false
    /\ (forall c, JSObject.inherited c = false -> ofCategory c filtered <> [] ->
          signOf (sub (subtotal (ofCategory c filtered))
                      (subtotal (ofCategory id filtered))) <> Gt)
    /\ topCategory (summary filtered categories)
       = match List.find (fun c => String.eqb (Category.id c) id) categories with
         | Some c => Category.name c
         | None => "N/A"%string
         end.
Proof.
  intros Hc (t & Hin & Hproto).
  assert (Hnd : NoDup (map fst (categoryTotals filtered))).
  { apply categoryTotals_NoDup. constructor. }
  assert (Hentry : forall k v,
             In (k, v) (JSObject.entries (categoryTotals filtered))
             <-> JSObject.get (categoryTotals filtered) k = JSObject.Own v).
  { intros k v. rewrite (get_In _ _ _ Hnd). split.
    - apply Permutation_in, entries_perm.
    - apply Permutation_in, Permutation_sym, entries_perm. }
  pose proof (sorted_head_first _ Hc) as Hhead.
  unfold summary. cbn [topCategory].
  destruct (head (JSArray.sort byTotalDesc (JSObject.entries (categoryTotals filtered))))
    as [[id v]|].
  - destruct Hhead as [Hid Hmax].
    destruct (Hc _ _ Hid Hid) as (Hnan & _ & _).
    apply Hentry in Hid. rewrite categoryTotals_get in Hid.
    destruct (String.eqb id "__proto__"); [discriminate|].
    destruct (ofCategory id filtered) as [|u r] eqn:Eid;
      [destruct (JSObject.inherited id); discriminate|].
    destruct (JSObject.inherited id) eqn:Einh.
    { inversion Hid; subst v. discriminate Hnan. }
    inversion Hid; subst v. clear Hid.
    exists id. rewrite Eid. split; [discriminate|]. split; [assumption|].
    split; [|reflexivity].
    intros c Hinh Hne.
    assert (Hget : JSObject.get (categoryTotals filtered) c
                   = JSObject.Own (JSObject.Num (subtotal (ofCategory c filtered)))).
    { rewrite categoryTotals_get.
      destruct (String.eqb c "__proto__") eqn:Ep.
      - apply String.eqb_eq in Ep. subst c. discriminate Hinh.
      - rewrite Hinh. destruct (ofCategory c filtered); congruence. }
    apply Hentry in Hget. apply Hmax in Hget. exact Hget.
  - exfalso.
    assert (Hget : exists v, JSObject.get (categoryTotals filtered) (Transaction.categoryId t)
                             = JSObject.Own v).
    { rewrite categoryTotals_get.
      apply String.eqb_neq in Hproto. rewrite Hproto.
      pose proof (ofCategory_nonempty t filtered Hin) as Hne.
      destruct (ofCategory _ filtered); [congruence|].
      destruct (JSObject.inherited _); eauto. }
    destruct Hget as [v Hv]. apply Hentry in Hv. rewrite Hhead in Hv. exact Hv.
Qed.

Lemma categoryTotals_proto (filtered : list Transaction.t) :
  (forall t, In t filtered -> Transaction.categoryId t = "__proto__"%string) ->
  categoryTotals filtered = [].
Proof.
  unfold categoryTotals. generalize (@nil (string * JSObject.Value)).
  induction filtered as [|t r IH]; intros o Hl; [reflexivity|].
  simpl. unfold addToCategory at 2. rewrite (Hl t (or_introl eq_refl)).
  unfold JSObject.set. rewrite String.eqb_refl. apply IH.
  intros u Hu. apply Hl. now right.
Qed.

Lemma topCategory_proto (filtered : list Transaction.t) (categories : list Category.t) :
  (forall t, In t filtered -> Transaction.categoryId t = "__proto__"%string) ->
  topCategory (summary filtered categories) = "N/A"%string.
Proof.
  intros Hall. unfold summary. cbn [topCategory].
  now rewrite (categoryTotals_proto filtered Hall).
Qed.

Section WithHost.
Context {host : Host}.

(** On a calendar date of the year 100 or later, [toUTCDate] gives the date
    that [new Date] gives. *)
Lemma toUTCDate_calendar (d : string) :
  calendarDateFrom100 d -> toUTCDate d = newDate d.
Proof.
  unfold calendarDateFrom100, toUTCDate, newDate.
  destruct (splitYMD d) as [[[y m] day]|]; [|contradiction].
  intros (Hy & Hm & Hd).
  assert (E : (1 <=? m) && (m <=? 12) && (1 <=? day) && (day <=? daysInMonth y (m - 1)) = true).
  { repeat (apply andb_true_iff; split); apply Z.leb_le; lia. }
  rewrite E. unfold Date_UTC.
  destruct (Z.leb_spec y 99); [lia|]. now rewrite andb_false_r.
Qed.


End WithHost.

Import Sample.

(** The January summary of the sample: 25.50 and 10.00 on food make 35.50 in
    two transactions, all of it under the one category. *)
Example summary_january :
  let filtered := @filteredTransactions kolkata expenses january in
  let s := summary filtered [foodAndDining] in
  filtered = [january15; january20]
  /\ consistent difference (JSObject.entries (categoryTotals filtered))
  /\ total s = decimal 355 1
  /\ transactionCount s = 2%nat
  /\ topCategory s = "Food & Dining"%string
  /\ subtotal (ofCategory "food-001" filtered) = decimal 355 1.
Proof.
  cbv zeta.
  replace (@filteredTransactions kolkata expenses january) with [january15; january20]
    by (vm_compute; reflexivity).
  split; [reflexivity|]. split; [|repeat split; vm_compute; reflexivity].
  intros a b [<-|[]] [<-|[]]. split; [reflexivity|]. split; [reflexivity|].
  intros c [<-|[]]. auto.
Qed.

(** The doubles add up with rounding: 0.1 and 0.2 make a total that is not
    the double 0.3 but a larger one. *)
Example summary_rounds :
  let filtered :=
    [expense "txn-301" "2024-01-15" 2024 1 "food-001" (decimal 1 1);
     expense "txn-302" "2024-01-16" 2024 1 "food-001" (decimal 2 1)] in
  total (summary filtered [foodAndDining]) <> decimal 3 1
  /\ ltb (decimal 3 1) (total (summary filtered [foodAndDining])) = true.
Proof.
  cbv zeta. split; vm_compute; [discriminate|reflexivity].
Qed.


(** West of UTC the date 2024-03-01, read as midnight UTC, is a time of the
    evening of 29 February: the expense dated the first of March is summarised
    under February. *)
Example summary_west_of_utc :
  @monthKey newYork februaryWest = Some (2024, 2)
  /\ @filteredTransactions newYork [marchFirst] februaryWest = [marchFirst]
  /\ summary (@filteredTransactions newYork [marchFirst] februaryWest) [foodAndDining]
     = mkSummary (ofZ 4) 1 "Food & Dining".
Proof. repeat split; vm_compute; reflexivity. Qed.


End DashboardProps.
(** * Properties of the ledger snapshot *)

Module LedgerProps.
Import Ledger.

Section Tables.
Context {V : Type}.

Lemma insertAll_union (records : list (string * V)) (table : gmap string V) :
  insertAll records table = list_to_map (reverse records) ∪ table.
Proof.
  revert table. induction records as [|r l IH]; intros table.
  - unfold insertAll. simpl. symmetry. apply (left_id_L ∅ (∪)).
  - unfold insertAll in *. simpl. rewrite IH, reverse_cons, list_to_map_app. simpl.
    rewrite <- (assoc_L (∪)). f_equal.
    now rewrite insert_union_singleton_l.
Qed.

Lemma insertAll_export (m table : gmap string V) :
  insertAll (map_to_list m) table = m ∪ table.
Proof.
  rewrite insertAll_union. f_equal.
  rewrite <- (list_to_map_to_list m) at 2.
  apply list_to_map_proper.
  - rewrite fmap_reverse, reverse_Permutation. apply NoDup_fst_map_to_list.
  - apply reverse_Permutation.
Qed.

Lemma conflicts_empty (records : list (string * V)) :
  conflicts records (∅ : gmap string V) = false.
Proof.
  unfold conflicts. induction records as [|r l IH]; simpl; [reflexivity|].
  rewrite IH, lookup_empty. rewrite bool_decide_eq_false_2; [reflexivity|].
  intros [x Hx]. discriminate.
Qed.

End Tables.

Lemma import_into_empty (policy : Policy) (db : Db) :
  import_data policy (export_data db) empty = inl db.
Proof.
  destruct db as [cs ts]. unfold import_data, export_data, empty. simpl.
  rewrite !conflicts_empty, !insertAll_export.
  rewrite !(right_id_L ∅ (∪)). now destruct policy.
Qed.

Lemma import_into_itself (policy : Policy) (db : Db) :
  stateAfter (import_data policy (export_data db) db) db = db.
Proof.
  destruct db as [cs ts]. unfold import_data, export_data. simpl.
  rewrite !insertAll_export, !(idemp_L (∪)).
  destruct policy; [|reflexivity].
  destruct (_ || _); reflexivity.
Qed.

(** C7.  Under either import policy and for every state of the ledger:
    importing its export into the empty store succeeds and gives the same
    categories and transactions; importing its export into the store itself
    leaves the store as it was (under [RejectExisting] the import is refused
    as soon as the store holds a record, which leaves the prior state); and
    the same holds for the store that the round trip produced. *)
Theorem export_import_round_trip (policy : Policy) (db : Db) :
  import_data policy (export_data db) empty = inl db
  /\ stateAfter (import_data policy (export_data db) db) db = db
  /\ (forall db', import_data policy (export_data db) empty = inl db' ->
        stateAfter (import_data policy (export_data db') db') db' = db).
Proof.
  split; [apply import_into_empty|]. split; [apply import_into_itself|].
  intros db' H. rewrite import_into_empty in H. inversion H; subst db'.
  apply import_into_itself.
Qed.

Import Sample.

(** The round trip on the sample ledger, under both policies. *)
Example round_trip_smallLedger :
  import_data Upsert (export_data smallLedger) empty = inl smallLedger
  /\ import_data RejectExisting (export_data smallLedger) empty = inl smallLedger
  /\ import_data RejectExisting (export_data smallLedger) smallLedger
     = inr ConflictError.
Proof.
  split; [apply import_into_empty|].
  split; [apply import_into_empty|].
  vm_compute. reflexivity.
Qed.

End LedgerProps.
Module StoreMore.
Import JS DateFns Store Notions Invariants.

Lemma filter_all {A : Type} (f : A -> bool) (l : list A) :
  (forall x, In x l -> f x = true) -> List.filter f l = l.
Proof.
  induction l as [|x r IH]; simpl; intros H; [reflexivity|].
  rewrite (H x (or_introl eq_refl)). f_equal. apply IH. auto.
Qed.

Lemma filter_swap {A : Type} (f g : A -> bool) (l : list A) :
  List.filter f (List.filter g l) = List.filter g (List.filter f l).
Proof.
  induction l as [|x r IH]; simpl; [reflexivity|].
  destruct (g x) eqn:Eg, (f x) eqn:Ef; simpl; rewrite ?Eg, ?Ef, IH; reflexivity.
Qed.

Lemma filter_twice {A : Type} (f : A -> bool) (l : list A) :
  List.filter f (List.filter f l) = List.filter f l.
Proof.
  apply filter_all. intros x Hx. apply filter_In in Hx. tauto.
Qed.

Lemma find_snoc {A : Type} (f : A -> bool) (l : list A) (x : A) :
  List.find f (l ++ [x])
  = match List.find f l with
    | Some y => Some y
    | None => if f x then Some x else None
    end.
Proof.
  induction l as [|y r IH]; simpl; [reflexivity|].
  destruct (f y); [reflexivity|exact IH].
Qed.

Lemma find_filter_other {A : Type} (f g : A -> bool) (l : list A) :
  (forall x, f x = true -> g x = true) ->
  List.find f (List.filter g l) = List.find f l.
Proof.
  intros H. induction l as [|x r IH]; simpl; [reflexivity|].
  destruct (g x) eqn:Eg; simpl.
  - destruct (f x); [reflexivity|exact IH].
  - destruct (f x) eqn:Ef; [|exact IH].
    apply H in Ef. congruence.
Qed.

Lemma find_filter_none {A : Type} (f g : A -> bool) (l : list A) :
  (forall x, f x = true -> g x = false) ->
  List.find f (List.filter g l) = None.
Proof.
  intros H. induction l as [|x r IH]; simpl; [reflexivity|].
  destruct (g x) eqn:Eg; simpl; [|exact IH].
  destruct (f x) eqn:Ef; [|exact IH].
  apply H in Ef. congruence.
Qed.

Lemma spread_empty (t : Transaction.t) : spread t PartialTransaction.empty = t.
Proof. destruct t. reflexivity. Qed.

Lemma default_union {A : Type} (x : A) (p q : option A) :
  default x (q ∪ p) = default (default x p) q.
Proof. destruct q, p; reflexivity. Qed.

Lemma spread_spread (t : Transaction.t) (p q : PartialTransaction.t) :
  spread (spread t p) q = spread t (mergePatch p q).
Proof.
  unfold spread, mergePatch. simpl. now rewrite !default_union.
Qed.

Lemma ofInt_inj (a b : Z) : ofInt a = ofInt b -> a = b.
Proof.
  unfold ofInt. intros H. apply DecimalZ.to_int_inj.
  assert (Hnn : forall z, Z.to_int z <> Decimal.Pos Decimal.Nil
                          /\ Z.to_int z <> Decimal.Neg Decimal.Nil).
  { intros [|p|p]; simpl; split; try discriminate;
      intros E; inversion E as [E']; now apply DecimalPos.Unsigned.to_uint_nonnil in E'. }
  destruct (Hnn a) as [Ha1 Ha2]. destruct (Hnn b) as [Hb1 Hb2].
  pose proof (NilZero.isi _ Ha1 Ha2) as Ia.
  pose proof (NilZero.isi _ Hb1 Hb2) as Ib.
  rewrite H in Ia. rewrite Ia in Ib. now inversion Ib.
Qed.

Section WithHost.
Context {host : Host}.

(** X1.  [deleteTransaction(id)] keeps exactly the stored transactions with
    another id and touches nothing else; when no stored transaction has the
    id, the state is what it was: there is no error for a missing id. *)
Theorem deleteTransaction_removes (id : string) (state : AppState) :
  let state' := deleteTransaction id state in
  (forall t, In t (transactions state') <->
             In t (transactions state) /\ Transaction.id t <> id)
  /\ categories state' = categories state
  /\ currentMonth state' = currentMonth state
  /\ ((forall t, In t (transactions state) -> Transaction.id t <> id) ->
      state' = state).
Proof.
  cbv zeta. split; [|split; [|split]]; try reflexivity.
  - intros t. simpl. rewrite filter_In, StoreProps.negb_eqb_true. reflexivity.
  - intros H. destruct state as [cs ts cm o e]. unfold deleteTransaction. simpl in *.
    f_equal. apply filter_all. intros t Ht. apply StoreProps.negb_eqb_true. now apply H.
Qed.

(** X2.  Two deletions of transactions give the same state in either order,
    and a deletion done twice is the deletion done once. *)
Theorem deleteTransaction_commutes (a b : string) (state : AppState) :
  deleteTransaction a (deleteTransaction b state)
  = deleteTransaction b (deleteTransaction a state)
  /\ deleteTransaction a (deleteTransaction a state) = deleteTransaction a state.
Proof.
  unfold deleteTransaction. simpl. split; f_equal.
  - apply filter_swap.
  - apply filter_twice.
Qed.

(** X3.  [updateTransaction] with an id that no stored transaction has
    leaves the state as it was; no error is reported. *)
Theorem updateTransaction_unknown_id (id : string) (updatedTxn : PartialTransaction.t)
    (state : AppState) :
  (forall t, In t (transactions state) -> Transaction.id t <> id) ->
  updateTransaction id updatedTxn state = state.
Proof.
  intros H. destruct state as [cs ts cm o e]. unfold updateTransaction. simpl in *.
  f_equal. rewrite <- (map_id ts) at 2. apply map_ext_in.
  intros t Ht. apply H in Ht. apply String.eqb_neq in Ht. now rewrite Ht.
Qed.

(** An update that supplies no field changes nothing. *)
Lemma updateTransaction_empty_patch (id : string) (state : AppState) :
  updateTransaction id PartialTransaction.empty state = state.
Proof.
  destruct state as [cs ts cm o e]. unfold updateTransaction. simpl.
  f_equal. rewrite <- (map_id ts) at 2. apply map_ext.
  intros t. rewrite spread_empty. now destruct (String.eqb _ _).
Qed.

(** X4.  Two updates of the same id, the first of which leaves the id as it
    is, are one update with the fields of both, those of the second winning. *)
Theorem updateTransaction_twice (id : string) (p q : PartialTransaction.t)
    (state : AppState) :
  default id (PartialTransaction.id p) = id ->
  updateTransaction id q (updateTransaction id p state)
  = updateTransaction id (mergePatch p q) state.
Proof.
  intros Hid. unfold updateTransaction. simpl. f_equal.
  rewrite map_map. apply map_ext. intros t.
  destruct (String.eqb (Transaction.id t) id) eqn:E.
  - assert (E' : String.eqb (Transaction.id (spread t p)) id = true).
    { apply String.eqb_eq in E. apply String.eqb_eq. simpl.
      destruct (PartialTransaction.id p); simpl in *; congruence. }
    rewrite E'. apply spread_spread.
  - now rewrite E.
Qed.

(** X5.  When the id that [addTransaction] makes is not yet stored, deleting
    that id right after the call gives back the state before it. *)
Theorem addTransaction_then_delete (clk : Clock) (transaction : NewTransaction)
    (state : AppState) :
  (forall t, In t (transactions state) ->
             Transaction.id t <> Transaction.id (newTxn clk transaction)) ->
  deleteTransaction (Transaction.id (newTxn clk transaction))
                    (addTransaction clk transaction state)
  = state.
Proof.
  intros H. destruct state as [cs ts cm o e].
  unfold deleteTransaction, addTransaction. simpl transactions. simpl categories.
  f_equal. rewrite List.filter_app. simpl List.filter at 2.
  rewrite String.eqb_refl. simpl. rewrite app_nil_r.
  apply filter_all. intros t Ht. apply StoreProps.negb_eqb_true. now apply H.
Qed.

(** X6.  When the id that [addCategory] makes is new to the categories and no
    transaction references it, deleting that category right after the call
    gives back the state before it. *)
Theorem addCategory_then_delete (clk : Clock) (category : NewCategory)
    (state : AppState) :
  (forall c, In c (categories state) ->
             Category.id c <> Category.id (newCategory clk category)) ->
  (forall t, In t (transactions state) ->
             Transaction.categoryId t <> Category.id (newCategory clk category)) ->
  deleteCategory (Category.id (newCategory clk category))
                 (snd (addCategory clk category state))
  = state.
Proof.
  intros Hc Ht. destruct state as [cs ts cm o e].
  unfold deleteCategory, addCategory. simpl.
  f_equal.
  - rewrite List.filter_app. simpl List.filter at 2.
    rewrite String.eqb_refl. simpl. rewrite app_nil_r.
    apply filter_all. intros c Hin. apply StoreProps.negb_eqb_true. now apply Hc.
  - apply filter_all. intros t Hin. apply StoreProps.negb_eqb_true. now apply Ht.
Qed.

(** X7.  After [addCategory], a lookup by id or by name that found a
    category before finds the same one; a lookup that found none finds the new
    category when its id (or its name, up to lower-casing) is asked for, and
    none otherwise. *)
Theorem addCategory_keeps_lookups (clk : Clock) (category : NewCategory)
    (state : AppState) :
  let c := fst (addCategory clk category state) in
  let state' := snd (addCategory clk category state) in
  (forall id, getCategoryById id state'
              = match getCategoryById id state with
                | Some found => Some found
                | None => if String.eqb (Category.id c) id then Some c else None
                end)
  /\ (forall name, getCategoryByName name state'
                   = match getCategoryByName name state with
                     | Some found => Some found
                     | None =>
                         match name with
                         | Some n =>
                             if truthy n
                                && String.eqb (toLowerCase (Category.name c)) (toLowerCase n)
                             then Some c else None
                         | None => None
                         end
                     end).
Proof.
  cbv zeta. split.
  - intros id. unfold getCategoryById. simpl. apply find_snoc.
  - intros [n|]; [|reflexivity]. unfold getCategoryByName.
    destruct (truthy n); [|reflexivity].
    simpl categories. rewrite find_snoc. reflexivity.
Qed.

(** X8.  After [deleteCategory(id)], [getCategoryById(id)] finds nothing,
    and every other id finds what it found before. *)
Theorem deleteCategory_lookup (id id' : string) (state : AppState) :
  getCategoryById id' (deleteCategory id state)
  = if String.eqb id' id then None else getCategoryById id' state.
Proof.
  unfold getCategoryById, deleteCategory. simpl.
  destruct (String.eqb id' id) eqn:E.
  - apply String.eqb_eq in E. subst id'. apply find_filter_none.
    intros c Hc. now rewrite Hc.
  - apply find_filter_other. intros c Hc. apply String.eqb_eq in Hc.
    apply StoreProps.negb_eqb_true. rewrite Hc. now apply String.eqb_neq.
Qed.

(** X9.  The store keeps transactions from referencing categories that
    are not stored, as long as the category id that a call writes into a
    transaction is the id of a stored category ([addTransaction] and
    [updateTransaction] do not check it); every other call, [deleteCategory]
    included, keeps the property by itself. *)
Theorem noDangling_preserved (a : Action) (state : AppState) :
  noDangling state ->
  (forall r, storedReference a = Some r ->
             exists c, In c (categories state) /\ Category.id c = r) ->
  noDangling (perform a state).
Proof.
  unfold noDangling. intros Hs Href. rewrite List.Forall_forall in Hs.
  apply List.Forall_forall.
  destruct a as [o p|clk tx|id p|id|clk cat|id|d| |]; simpl in *;
    try (intros t Ht; now apply Hs).
  - intros t Ht. apply in_app_or in Ht. destruct Ht as [Ht|[<-|[]]].
    + now apply Hs.
    + simpl. now apply Href.
  - intros t Ht. apply in_map_iff in Ht. destruct Ht as [t0 [<- Ht0]].
    destruct (String.eqb (Transaction.id t0) id); [|now apply Hs].
    simpl. destruct (PartialTransaction.categoryId p) as [r|]; simpl.
    + now apply Href.
    + now apply Hs.
  - intros t Ht. apply filter_In in Ht. destruct Ht as [Ht _]. now apply Hs.
  - intros t Ht. destruct (Hs t Ht) as [c [Hc Hid]].
    exists c. split; [|assumption]. apply in_or_app. now left.
  - intros t Ht. apply filter_In in Ht. destruct Ht as [Ht Hne].
    apply StoreProps.negb_eqb_true in Hne.
    destruct (Hs t Ht) as [c [Hc Hid]].
    exists c. split; [|assumption]. apply filter_In. split; [assumption|].
    apply StoreProps.negb_eqb_true. congruence.
Qed.

(** X10.  Two transactions (or two categories) get the same id exactly when
    the clock read the same millisecond for both. *)
Theorem same_id_same_millisecond (clk clk' : Clock)
    (transaction transaction' : NewTransaction) (category category' : NewCategory) :
  (Transaction.id (newTxn clk transaction) = Transaction.id (newTxn clk' transaction')
   <-> clk 0%nat = clk' 0%nat)
  /\ (Category.id (newCategory clk category) = Category.id (newCategory clk' category')
      <-> clk 0%nat = clk' 0%nat).
Proof.
  simpl. split; split; intros H; try (now rewrite H);
    inversion H as [H']; now apply ofInt_inj.
Qed.

End WithHost.

Import Sample Forms.

(** No stored transaction of the sample has the id txn-0. *)
Lemma updateTransaction_unknown_id_witness :
  updateTransaction "txn-0" (dateOnly "2024-02-20") withLunch = withLunch.
Proof.
  apply updateTransaction_unknown_id.
  intros t [<- | []]. vm_compute. discriminate.
Defined.

(** New notes, then a new date, for the stored lunch. *)
Lemma updateTransaction_twice_witness :
  updateTransaction lunchId (dateOnly "2024-02-20")
    (updateTransaction lunchId (notesOnly (Some "Late lunch"%string)) withLunch)
  = updateTransaction lunchId
      (mergePatch (notesOnly (Some "Late lunch"%string)) (dateOnly "2024-02-20")) withLunch.
Proof. apply updateTransaction_twice. reflexivity. Defined.

(** The tea is added at 10:00:00, the lunch was at 10:00:01. *)
Lemma addTransaction_then_delete_witness :
  deleteTransaction (Transaction.id (@newTxn kolkata clock1 tea))
                    (@addTransaction kolkata clock1 tea withLunch)
  = withLunch.
Proof.
  apply (@addTransaction_then_delete kolkata).
  intros t [<- | []]. vm_compute. discriminate.
Defined.

(** The category Travel is added at 10:00:01, Food was at 10:00:00. *)
Lemma addCategory_then_delete_witness :
  deleteCategory (Category.id (newCategory clock2 travelRequest))
                 (snd (addCategory clock2 travelRequest withLunch))
  = withLunch.
Proof.
  apply addCategory_then_delete.
  - intros c [<- | []]. vm_compute. discriminate.
  - intros t [<- | []]. vm_compute. discriminate.
Defined.

(** The tea references the stored category of the lunch. *)
Lemma noDangling_preserved_witness :
  noDangling (@perform kolkata (AddTransaction clock1 tea) withLunch).
Proof.
  apply (@noDangling_preserved kolkata).
  - repeat constructor. eexists. split; [left; reflexivity | reflexivity].
  - intros r Hr. injection Hr as <-.
    eexists. split; [left; reflexivity | reflexivity].
Defined.

End StoreMore.
Module MonthMore.
Import JS DateFns Store Notions Invariants CalendarProps MonthProps.

(** Times of the years near our own are within the range of [Date]. *)
Lemma timeClip_near (y m d ms off : Z) :
  -200002 <= y <= 200002 -> 0 <= m < 12 -> 1 <= d <= 31 -> 0 <= ms < msPerDay ->
  Z.abs off <= msPerDay ->
  timeClip (makeDate (daysFromCivil y m d) ms - off)
  = ValidDate (makeDate (daysFromCivil y m d) ms - off).
Proof.
  intros Hy Hm Hd Hms Ho. unfold timeClip.
  destruct (Z.leb_spec (Z.abs (makeDate (daysFromCivil y m d) ms - off)) maxTime) as [|H];
    [reflexivity|exfalso].
  unfold makeDate, maxTime, msPerDay in *.
  destruct (daysFromCivil_bound y m d Hm Hd); lia.
Qed.

Section FixedOffset.
Context {host : Host}.
Variable off : Z.
Hypothesis Hoff : fixedOffset off.
Hypothesis Hnear : Z.abs off <= msPerDay.

(** A date whose local fields are the first day of a month at midnight is
    the start of that month. *)
Lemma localFields_monthStart (d : Date) (y m : Z) :
  localFields d = Some (mkDateTime y m 1 0) ->
  0 <= m < 12 /\ d = ValidDate (monthStartTime off y m).
Proof.
  destruct d as [|t]; [discriminate|]. rewrite localFields_valid.
  intros H. inversion H as [Hf].
  destruct (fieldsOf_wellFormed (localTime t)) as [[[Hm _] _] Ht].
  rewrite Hf in Hm, Ht. cbn [dt_month] in Hm. split; [assumption|].
  f_equal. rewrite (localTime_fixed off Hoff) in Ht.
  unfold timeOfFields, dayOf in Ht. cbn [dt_year dt_month dt_day dt_ms] in Ht.
  unfold monthStartTime. lia.
Qed.

(** [addMonths] from the start of a month, by up to a year. *)
Lemma addMonths_step (y m k : Z) :
  0 <= m < 12 -> -200001 <= y <= 200001 -> -12 <= k <= 12 ->
  addMonths (ValidDate (monthStartTime off y m)) k
  = ValidDate (monthStartTime off ((12 * y + m + k) / 12) ((12 * y + m + k) mod 12)).
Proof.
  intros Hm Hy Hk.
  unfold addMonths. rewrite localFields_valid.
  rewrite (fields_monthStartTime off Hoff) by assumption.
  destruct (Z.eqb_spec k 0) as [->|Hk0].
  { rewrite Z.add_0_r. destruct (month_carry y m Hm) as [-> ->]. reflexivity. }
  cbv zeta. cbn [dt_day dt_month]. unfold setMonth.
  rewrite (fields_monthStartTime off Hoff) by assumption. cbv zeta.
  cbn [dt_year dt_ms]. rewrite (utc_fixed off Hoff).
  unfold makeDay. cbv zeta.
  set (ym := 12 * y + (m + k + 1)).
  assert (Hym : 0 <= ym mod 12 < 12) by (apply Z.mod_pos_bound; lia).
  set (f := mkDateTime (ym / 12) (ym mod 12) 1 0).
  assert (Hf : onCalendar f) by (apply (wellFormed_first _ _ Hym)).
  destruct (dayOf_prevDay f Hf) as [Hp Hday].
  replace (daysFromCivil (ym / 12) (ym mod 12) 1 + 0 - 1) with (dayOf (prevDay f))
    by (rewrite Hday; unfold dayOf, f; cbn [dt_year dt_month dt_day]; lia).
  assert (Hfields : dt_year (prevDay f) = (12 * y + m + k) / 12
                    /\ dt_month (prevDay f) = (12 * y + m + k) mod 12).
  { unfold prevDay, f. cbn [dt_year dt_month dt_day dt_ms].
    destruct (1 <? 1) eqn:E1; [discriminate E1|].
    destruct (Z.ltb_spec 0 (ym mod 12)); cbn [dt_year dt_month];
      unfold ym in *; Z.div_mod_to_equations; lia. }
  destruct Hfields as [Hpy Hpm].
  assert (Hyear : -200002 <= dt_year (prevDay f) <= 200002).
  { rewrite Hpy. Z.div_mod_to_equations. lia. }
  destruct Hp as [Hpmonth Hpday].
  pose proof (daysInMonth_le_31 (dt_year (prevDay f)) (dt_month (prevDay f))) as H31.
  unfold dayOf at 1.
  rewrite timeClip_near by (solve [assumption | unfold msPerDay; lia]).
  rewrite localFields_valid, (localTime_fixed off Hoff).
  replace (makeDate (daysFromCivil (dt_year (prevDay f)) (dt_month (prevDay f))
                                   (dt_day (prevDay f))) 0 - off + off)
    with (timeOfFields (prevDay f))
    by (unfold timeOfFields, dayOf; rewrite prevDay_ms; unfold f; cbn [dt_ms]; lia).
  rewrite fieldsOf_timeOfFields
    by (split; [split; assumption|rewrite prevDay_ms; unfold f, msPerDay; cbn [dt_ms]; lia]).
  assert (Hlast : 28 <= dt_day (prevDay f)).
  { unfold prevDay, f. cbn [dt_day dt_month dt_year dt_ms].
    destruct (1 <? 1) eqn:E1; [discriminate E1|].
    destruct (0 <? ym mod 12); cbn [dt_day]; [apply daysInMonth_ge_28|lia]. }
  destruct (dt_day (prevDay f) <=? 1) eqn:E; [apply Z.leb_le in E; lia|].
  unfold setFullYear. rewrite (fields_monthStartTime off Hoff) by assumption. cbv zeta.
  cbn [dt_ms]. rewrite (utc_fixed off Hoff).
  rewrite makeDay_carried by assumption.
  rewrite timeClip_near by (solve [assumption | unfold msPerDay; lia]).
  rewrite Hpy, Hpm. reflexivity.
Qed.

End FixedOffset.

(** X11.  On a host at a fixed offset, from a month shown that is the first
    day of a month at local midnight, in a year far from the ends of the range
    of [Date], [nextMonth] shows the first day at midnight of the following
    month and [prevMonth] that of the preceding one, December and January
    carrying into the year. *)
Theorem nextMonth_prevMonth_step `{Host} (off : Z) (state : AppState) (y m : Z) :
  fixedOffset off -> Z.abs off <= msPerDay ->
  localFields (currentMonth state) = Some (mkDateTime y m 1 0) -> nearYear y ->
  localFields (currentMonth (nextMonth state))
  = Some (if m =? 11 then mkDateTime (y + 1) 0 1 0 else mkDateTime y (m + 1) 1 0)
  /\ localFields (currentMonth (prevMonth state))
     = Some (if m =? 0 then mkDateTime (y - 1) 11 1 0 else mkDateTime y (m - 1) 1 0).
Proof.
  intros Hoff Ho Hl Hy.
  destruct (localFields_monthStart off Hoff _ _ _ Hl) as [Hm Hd].
  unfold nextMonth, prevMonth, subMonths. cbn [currentMonth]. rewrite Hd.
  unfold nearYear in Hy.
  rewrite !(addMonths_step off Hoff Ho) by (assumption || lia).
  rewrite !localFields_valid.
  rewrite !(fields_monthStartTime off Hoff) by (apply Z.mod_pos_bound; lia).
  split; f_equal.
  - destruct (Z.eqb_spec m 11) as [->|Hne]; f_equal; Z.div_mod_to_equations; lia.
  - destruct (Z.eqb_spec m 0) as [->|Hne]; f_equal; Z.div_mod_to_equations; lia.
Qed.


Import Sample.

Lemma nextMonth_prevMonth_step_witness :
  @localFields kolkata (currentMonth (@nextMonth kolkata start))
  = Some (if 0 =? 11 then mkDateTime (2024 + 1) 0 1 0 else mkDateTime 2024 (0 + 1) 1 0)
  /\ @localFields kolkata (currentMonth (@prevMonth kolkata start))
     = Some (if 0 =? 0 then mkDateTime (2024 - 1) 11 1 0 else mkDateTime 2024 (0 - 1) 1 0).
Proof.
  apply (@nextMonth_prevMonth_step kolkata 19800000 start 2024 0).
  - exact kolkata_fixedOffset.
  - vm_compute. discriminate.
  - vm_compute. reflexivity.
  - unfold nearYear. lia.
Defined.


End MonthMore.
Module PagesMore.
Import JS DateFns Store Notions Invariants CalendarProps.

Section WithHost.
Context {host : Host}.



Lemma byDateDesc_notEarlier (a b : Transaction.t) :
  notEarlier a b -> TransactionsPage.byDateDesc a b <> Gt.
Proof.
  intros (ta & tb & Ha & Hb & Hle). unfold TransactionsPage.byDateDesc.
  unfold dateTime in Ha, Hb. rewrite Ha, Hb.
  destruct (Z.compare_spec (tb - ta) 0); try discriminate. lia.
Qed.

(** X13.  The list of the transactions page, filtered and sorted once more
    for the same month, is the same list. *)
Theorem month_list_of_month_list (transactions : list Transaction.t)
    (currentMonth : Date) :
  TransactionsPage.filteredTransactions
    (TransactionsPage.filteredTransactions transactions currentMonth) currentMonth
  = TransactionsPage.filteredTransactions transactions currentMonth.
Proof.
  pose proof (PageProps.month_list_sorted transactions currentMonth) as Hs.
  unfold TransactionsPage.filteredTransactions at 1.
  rewrite StoreMore.filter_all.
  - apply PageProps.sort_of_sorted with (R := notEarlier); [|assumption].
    apply byDateDesc_notEarlier.
  - intros t Ht. unfold TransactionsPage.filteredTransactions in Ht.
    apply (Permutation_in _ (PageProps.sort_perm _ _)) in Ht.
    apply filter_In in Ht. tauto.
Qed.


Lemma toUTCDate_plain (d : string) :
  splitYMD d = None \/ calendarDateFrom100 d -> DashboardPage.toUTCDate d = newDate d.
Proof.
  intros [H|H]; [|now apply DashboardProps.toUTCDate_calendar].
  unfold DashboardPage.toUTCDate. now rewrite H.
Qed.

(** X15.  On a string that is not of the shape YYYY-MM-DD, and on a calendar
    date of the year 100 or later, [toUTCDate] gives the date that [new Date]
    gives. *)
Theorem toUTCDate_agrees_on_plain_dates (d : string) :
  splitYMD d = None \/ calendarDateFrom100 d -> DashboardPage.toUTCDate d = newDate d.
Proof. apply toUTCDate_plain. Qed.

(** X16.  When every stored date is such a string, the dashboard summarises
    the transactions that the transactions page lists: the same transactions
    as often, those of the same time in the same order, and
    [transactionCount] is the length of the list. *)
Theorem dashboard_matches_month_list (transactions : list Transaction.t)
    (categories : list Category.t) (currentMonth : Date) :
  Forall (fun t => splitYMD (Transaction.date t) = None
                   \/ calendarDateFrom100 (Transaction.date t)) transactions ->
  let listed := TransactionsPage.filteredTransactions transactions currentMonth in
  let summarised := DashboardPage.filteredTransactions transactions currentMonth in
  Permutation summarised listed
  /\ (forall v, atTime v summarised = atTime v listed)
  /\ DashboardPage.transactionCount (DashboardPage.summary summarised categories)
     = length listed.
Proof.
  intros Hplain. cbv zeta.
  assert (He : DashboardPage.filteredTransactions transactions currentMonth
               = List.filter
                   (fun t => isSameMonth (newDate (Transaction.date t)) currentMonth)
                   transactions).
  { unfold DashboardPage.filteredTransactions. apply filter_ext_in.
    intros t Ht. rewrite List.Forall_forall in Hplain.
    now rewrite toUTCDate_plain by now apply Hplain. }
  assert (Hp : Permutation (DashboardPage.filteredTransactions transactions currentMonth)
                 (TransactionsPage.filteredTransactions transactions currentMonth)).
  { rewrite He. unfold TransactionsPage.filteredTransactions.
    now rewrite PageProps.sort_perm. }
  split; [exact Hp|]. split.
  - intros v. rewrite PageProps.month_list_stable. now rewrite He.
  - unfold DashboardPage.summary. cbn [DashboardPage.transactionCount].
    now apply Permutation_length.
Qed.

End WithHost.

(** X17.  Expenses filed under the category id __proto__ leave no subtotal
    (the assignment to that key of the object is without effect), so a month
    with no other expenses has the top category N/A, whatever categories are
    stored. *)
Theorem topCategory_never_proto (filtered : list Transaction.t)
    (categories : list Category.t) :
  (forall t, In t filtered -> Transaction.categoryId t = "__proto__"%string) ->
  DashboardPage.categoryTotals filtered = []
  /\ DashboardPage.topCategory (DashboardPage.summary filtered categories)
     = "N/A"%string.
Proof.
  intros Hall. split.
  - now apply DashboardProps.categoryTotals_proto.
  - now apply DashboardProps.topCategory_proto.
Qed.

(** X18.  When every stored transaction references a stored category, the
    subtotals are compared consistently and the transactions summarised, all
    of them stored, include one with a category id other than __proto__, the
    top category of the dashboard is the name of a stored category, not the
    N/A of a missing one. *)
Theorem topCategory_is_stored (filtered : list Transaction.t) (state : AppState) :
  noDangling state ->
  (forall t, In t filtered -> In t (transactions state)) ->
  consistent DashboardPage.difference
             (JSObject.entries (DashboardPage.categoryTotals filtered)) ->
  (exists t, In t filtered /\ Transaction.categoryId t <> "__proto__"%string) ->
  exists c, In c (categories state)
            /\ DashboardPage.topCategory (DashboardPage.summary filtered (categories state))
               = Category.name c.
Proof.
  intros Hnd Hsub Hc Hex.
  destruct (DashboardProps.topCategory_first filtered (categories state) Hc Hex)
    as (id & Hid & _ & _ & Htop).
  rewrite Htop.
  destruct (DashboardProps.ofCategory_In id filtered Hid) as (t & Ht & Hcid).
  unfold noDangling in Hnd. rewrite List.Forall_forall in Hnd.
  destruct (Hnd t (Hsub t Ht)) as (c & Hin & Hcat).
  destruct (List.find (fun c0 => String.eqb (Category.id c0) id) (categories state))
    as [c'|] eqn:F.
  - exists c'. split; [|reflexivity]. now apply List.find_some in F.
  - exfalso. apply (List.find_none _ _ F) in Hin.
    apply String.eqb_neq in Hin. congruence.
Qed.

Import Sample Forms.

Lemma toUTCDate_agrees_on_plain_dates_witness :
  @DashboardPage.toUTCDate kolkata "2024-01-15" = @newDate kolkata "2024-01-15".
Proof.
  apply (@toUTCDate_agrees_on_plain_dates kolkata).
  right. vm_compute. repeat split; discriminate.
Defined.

(** The three expenses of the sample have calendar dates of 2024. *)
Lemma dashboard_matches_month_list_witness :
  Permutation (@DashboardPage.filteredTransactions kolkata expenses january)
              (@TransactionsPage.filteredTransactions kolkata expenses january)
  /\ (forall v,
        @atTime kolkata v (@DashboardPage.filteredTransactions kolkata expenses january)
        = @atTime kolkata v (@TransactionsPage.filteredTransactions kolkata expenses january))
  /\ DashboardPage.transactionCount
       (DashboardPage.summary
          (@DashboardPage.filteredTransactions kolkata expenses january) [foodAndDining])
     = length (@TransactionsPage.filteredTransactions kolkata expenses january).
Proof.
  apply (@dashboard_matches_month_list kolkata expenses [foodAndDining] january).
  repeat (apply List.Forall_cons; [right; vm_compute; repeat split; discriminate|]).
  apply List.Forall_nil.
Defined.

(** A month whose one expense is filed under __proto__. *)
Lemma topCategory_never_proto_witness :
  DashboardPage.categoryTotals [misfiled] = []
  /\ DashboardPage.topCategory (DashboardPage.summary [misfiled] [foodAndDining])
     = "N/A"%string.
Proof.
  apply topCategory_never_proto.
  intros t [<- | []]. reflexivity.
Defined.

(** The stored lunch, under the stored category Food. *)
Lemma topCategory_is_stored_witness :
  exists c, In c (categories withLunch)
            /\ DashboardPage.topCategory
                 (DashboardPage.summary (transactions withLunch) (categories withLunch))
               = Category.name c.
Proof.
  apply (topCategory_is_stored (transactions withLunch) withLunch).
  - repeat constructor. eexists. split; [left; reflexivity | reflexivity].
  - intros t Ht. exact Ht.
  - replace (JSObject.entries (DashboardPage.categoryTotals (transactions withLunch)))
      with [(foodId, JSObject.Num (JSNumber.decimal 255 1))]
      by (vm_compute; reflexivity).
    intros a b [<-|[]] [<-|[]]. split; [reflexivity|]. split; [reflexivity|].
    intros c [<-|[]]. auto.
  - exists storedLunch. split; [left; reflexivity|]. vm_compute. discriminate.
Defined.

End PagesMore.
Module ComponentsMore.
Import JS JSText DateFns Store Notions Invariants.

Lemma length_append (a b : string) :
  String.length (a +:+ b) = (String.length a + String.length b)%nat.
Proof. induction a as [|c a IH]; simpl; [reflexivity|]. now rewrite IH. Qed.

Lemma allHex_append (a b : string) : allHex (a +:+ b) = allHex a && allHex b.
Proof.
  induction a as [|c a IH]; simpl; [reflexivity|].
  rewrite IH. now rewrite andb_assoc.
Qed.

Lemma zeros_succ (j : nat) :
  String.concat "" (repeat "0"%string (S j))
  = String "0" (String.concat "" (repeat "0"%string j)).
Proof. destruct j; reflexivity. Qed.

Lemma zeros_length (j : nat) :
  String.length (String.concat "" (repeat "0"%string j)) = j
  /\ allHex (String.concat "" (repeat "0"%string j)) = true.
Proof.
  induction j as [|j [IH1 IH2]]; [now split|].
  rewrite zeros_succ. simpl. rewrite IH1, IH2. now split.
Qed.

Lemma hexChar_isHex (d : Z) : 0 <= d < 16 -> isHexDigit (hexChar d) = true.
Proof.
  intros H.
  assert (E : d = 0 \/ d = 1 \/ d = 2 \/ d = 3 \/ d = 4 \/ d = 5 \/ d = 6 \/ d = 7
              \/ d = 8 \/ d = 9 \/ d = 10 \/ d = 11 \/ d = 12 \/ d = 13 \/ d = 14
              \/ d = 15) by lia.
  repeat (destruct E as [->|E]; [reflexivity|]). now subst.
Qed.

Lemma toHex_allHex (fuel : nat) (n : Z) : 0 <= n -> allHex (toHex fuel n) = true.
Proof.
  revert n. induction fuel as [|f IH]; intros n Hn; [reflexivity|].
  simpl. destruct (Z.ltb_spec n 16).
  - simpl. rewrite hexChar_isHex by lia. reflexivity.
  - rewrite allHex_append. rewrite IH by (apply Z.div_pos; lia).
    simpl. rewrite hexChar_isHex; [reflexivity|]. apply Z.mod_pos_bound. lia.
Qed.

Lemma toHex_length (fuel k : nat) (n : Z) :
  0 <= n < 16 ^ Z.of_nat (S k) -> (String.length (toHex fuel n) <= S k)%nat.
Proof.
  revert k n. induction fuel as [|f IH]; intros k n Hn; [simpl; lia|].
  simpl. destruct (Z.ltb_spec n 16); [simpl; lia|].
  rewrite length_append. simpl.
  destruct k as [|k]; [simpl in Hn; lia|].
  assert (Hq : 0 <= n / 16 < 16 ^ Z.of_nat (S k)).
  { split; [apply Z.div_pos; lia|].
    apply Z.div_lt_upper_bound; [lia|].
    replace (Z.of_nat (S (S k))) with (Z.of_nat (S k) + 1) in Hn by lia.
    rewrite Z.pow_add_r in Hn by lia. lia. }
  specialize (IH k (n / 16) Hq). lia.
Qed.

Lemma padStart0_hex (s : string) :
  (String.length s <= 6)%nat -> allHex s = true ->
  String.length (padStart0 6 s) = 6%nat /\ allHex (padStart0 6 s) = true.
Proof.
  intros Hl Hh. unfold padStart0.
  destruct (zeros_length (6 - String.length s)) as [Z1 Z2].
  rewrite length_append, allHex_append, Z1, Z2, Hh. split; [lia|reflexivity].
Qed.

Lemma randomColor_isHexColor (n : Z) :
  0 <= n <= 16777214 -> isHexColor (randomColor n) = true.
Proof.
  intros Hn. unfold randomColor, isHexColor. cbn [String.append].
  destruct (padStart0_hex (toString16 n)) as [H1 H2].
  - unfold toString16. apply (toHex_length _ 5). simpl. lia.
  - unfold toString16. apply toHex_allHex. lia.
  - change ("#" +:+ padStart0 6 (toString16 n))
      with (String "#" (padStart0 6 (toString16 n))).
    cbv beta iota. rewrite H1, H2. reflexivity.
Qed.

Section WithHost.
Context {host : Host}.

(** X19.  The colour that the dialog and the voice recorder draw at random
    always passes the pattern of the dialog's schema. *)
Theorem randomColor_passes_schema (n : Z) (name : string) :
  0 <= n <= 16777214 -> name <> ""%string ->
  CreateCategoryDialog.categoryFormSchema
    (CreateCategoryDialog.mkCategoryFormValues name (randomColor n)) = true.
Proof.
  intros Hn Hname. unfold CreateCategoryDialog.categoryFormSchema.
  cbn [CreateCategoryDialog.name CreateCategoryDialog.color].
  rewrite randomColor_isHexColor by assumption.
  destruct name; [congruence|reflexivity].
Qed.

Lemma truthy_length (s : string) : (1 <=? String.length s)%nat = truthy s.
Proof. now destruct s. Qed.


Lemma resolveCategory_cases (clk : Clock) (n : Z)
    (parsedExpense : VoiceRecorder.ParsedExpense) (state : AppState) :
  let r := VoiceRecorder.resolveCategory clk n parsedExpense state in
  (snd r = state
   /\ match fst r with
      | Some c => In c (categories state)
      | None => True
      end)
  \/ (exists nm,
        truthy nm = true
        /\ getCategoryByName (Some nm) state = None
        /\ fst r = Some (newCategory clk (mkNewCategory nm (randomColor n) None))
        /\ snd r = snd (addCategory clk (mkNewCategory nm (randomColor n) None) state)).
Proof.
  cbv zeta. unfold VoiceRecorder.resolveCategory.
  destruct (VoiceRecorder.categoryName parsedExpense) as [raw|];
    [|left; now split].
  change (trim <$> Some raw) with (Some (trim raw)). cbv beta iota zeta.
  destruct (truthy (trim raw)) eqn:Ht; [|left; now split].
  destruct (getCategoryByName (Some (trim raw)) state) as [c|] eqn:G.
  - left. split; [reflexivity|]. cbn [fst].
    unfold getCategoryByName in G. rewrite Ht in G. now apply List.find_some in G.
  - right. exists (trim raw). cbn [fst snd]. repeat split; assumption.
Qed.

(** X21.  The voice recorder creates no category whose lower-cased name is
    that of a stored one: names that are distinct up to lower-casing stay
    so. *)
Theorem voice_keeps_distinctNames (clk : Clock) (n : Z)
    (parsedExpense : VoiceRecorder.ParsedExpense) (state : AppState) :
  distinctNames state ->
  distinctNames (VoiceRecorder.openSheet clk n parsedExpense state).
Proof.
  intros Hd. unfold VoiceRecorder.openSheet, distinctNames. simpl categories.
  destruct (resolveCategory_cases clk n parsedExpense state)
    as [[-> _]|(nm & Ht & G & _ & ->)]; [exact Hd|].
  simpl. rewrite map_app. simpl.
  apply NoDup_app. split; [exact Hd|]. split.
  - intros x Hx Hx'. apply list_elem_of_In in Hx, Hx'. destruct Hx' as [<-|[]].
    unfold getCategoryByName in G. rewrite Ht in G.
    apply in_map_iff in Hx. destruct Hx as (c & Hc & Hin).
    apply (List.find_none _ _ G) in Hin. apply String.eqb_neq in Hin. congruence.
  - repeat constructor. intros Hin. inversion Hin.
Qed.

(** X22.  A category that the voice recorder creates has a name of at least
    one character and a colour that passes the pattern of the dialog. *)
Theorem voice_keeps_wellStyled (clk : Clock) (n : Z)
    (parsedExpense : VoiceRecorder.ParsedExpense) (state : AppState) :
  0 <= n <= 16777214 -> wellStyled state ->
  wellStyled (VoiceRecorder.openSheet clk n parsedExpense state).
Proof.
  intros Hn Hs. unfold VoiceRecorder.openSheet, wellStyled. simpl categories.
  destruct (resolveCategory_cases clk n parsedExpense state)
    as [[-> _]|(nm & Ht & _ & _ & ->)]; [exact Hs|].
  simpl. apply Forall_app. split; [exact Hs|].
  repeat constructor; simpl; [assumption|now apply randomColor_isHexColor].
Qed.

(** X23.  The sheet that the voice recorder opens holds no id, so submitting
    it adds one transaction and updates none; the recorder itself stores no
    transaction. *)
Theorem voice_then_submit_adds (clk clk' : Clock) (n : Z)
    (parsedExpense : VoiceRecorder.ParsedExpense)
    (data : AddExpenseSheet.ExpenseFormValues) (state : AppState) :
  let opened := VoiceRecorder.openSheet clk n parsedExpense state in
  let state' := AddExpenseSheet.onSubmit clk' data opened in
  addExpenseSheetOpen opened = true
  /\ transactions opened = transactions state
  /\ transactions state'
     = transactions state ++ [newTxn clk' (AddExpenseSheet.asNew data)]
  /\ categories state' = categories opened
  /\ addExpenseSheetOpen state' = false
  /\ editingTransaction state' = None.
Proof.
  cbv zeta.
  assert (Ht : transactions (VoiceRecorder.openSheet clk n parsedExpense state)
               = transactions state).
  { unfold VoiceRecorder.openSheet. simpl transactions.
    destruct (resolveCategory_cases clk n parsedExpense state)
      as [[-> _]|(nm & _ & _ & _ & ->)]; reflexivity. }
  split; [reflexivity|]. split; [exact Ht|].
  unfold AddExpenseSheet.onSubmit.
  change (AddExpenseSheet.editingId (VoiceRecorder.openSheet clk n parsedExpense state))
    with (@None string).
  simpl. rewrite <- Ht. repeat split.
Qed.

Lemma voice_prefills_stored_category (clk : Clock) (n : Z)
    (parsedExpense : VoiceRecorder.ParsedExpense) (state : AppState) :
  let opened := VoiceRecorder.openSheet clk n parsedExpense state in
  exists p, editingTransaction opened = Some p
            /\ PartialTransaction.id p = None
            /\ (PartialTransaction.categoryId p = Some ""%string
                \/ exists c, In c (categories opened)
                             /\ PartialTransaction.categoryId p = Some (Category.id c)).
Proof.
  cbv zeta. unfold VoiceRecorder.openSheet. eexists. split; [reflexivity|].
  split; [reflexivity|]. simpl.
  destruct (resolveCategory_cases clk n parsedExpense state)
    as [[E Hc]|(nm & _ & _ & E1 & E2)].
  - rewrite E. destruct (fst (VoiceRecorder.resolveCategory clk n parsedExpense state))
      as [c|]; [|now left].
    destruct (truthy (Category.id c)); [|now left]. right. exists c. now split.
  - rewrite E1, E2. right. eexists. split; [|reflexivity].
    simpl. apply in_or_app. right. now left.
Qed.

(** X24.  Editing a listed transaction and submitting the sheet replaces the
    amount, the category id, the date and (when supplied) the notes of the
    transactions with its id, and keeps their id, year, month and creation time
    as well as every other transaction; the sheet is closed. *)
Theorem edit_then_submit (clk : Clock) (t : Transaction.t)
    (data : AddExpenseSheet.ExpenseFormValues) (state : AppState) :
  truthy (Transaction.id t) = true ->
  let state' := AddExpenseSheet.onSubmit clk data (TransactionActions.edit t state) in
  Forall2 (fun u u' =>
             (Transaction.id u = Transaction.id t ->
                Transaction.amount u' = AddExpenseSheet.amount data
                /\ Transaction.categoryId u' = AddExpenseSheet.categoryId data
                /\ Transaction.date u' = format_yyyy_MM_dd (AddExpenseSheet.date data)
                /\ Transaction.notes u'
                   = default (Transaction.notes u) (AddExpenseSheet.notes data)
                /\ Transaction.id u' = Transaction.id u
                /\ Transaction.year u' = Transaction.year u
                /\ Transaction.month u' = Transaction.month u
                /\ Transaction.createdAt u' = Transaction.createdAt u)
             /\ (Transaction.id u <> Transaction.id t -> u' = u))
          (transactions state) (transactions state')
  /\ categories state' = categories state
  /\ addExpenseSheetOpen state' = false
  /\ editingTransaction state' = None.
Proof.
  intros Hid. cbv zeta. unfold AddExpenseSheet.onSubmit.
  assert (E : AddExpenseSheet.editingId (TransactionActions.edit t state)
              = Some (Transaction.id t)).
  { unfold AddExpenseSheet.editingId. simpl. now rewrite Hid. }
  rewrite E. simpl. repeat split.
  induction (transactions state) as [|u l IH]; simpl; constructor; [|assumption].
  destruct (String.eqb (Transaction.id u) (Transaction.id t)) eqn:Eu.
  - split; [|intros H; apply String.eqb_eq in Eu; contradiction].
    intros _. repeat split.
  - split; [intros H; apply String.eqb_neq in Eu; contradiction|reflexivity].
Qed.

(** X25.  Submitting the sheet keeps every stored transaction with an
    amount that is a number not below 0.01 and a category id of at least one
    character: values that fail the schema store nothing. *)
Theorem sheet_keeps_sheetChecked (clk : Clock)
    (data : AddExpenseSheet.ExpenseFormValues) (state : AppState) :
  sheetChecked state -> sheetChecked (AddExpenseSheet.handleSubmit clk data state).
Proof.
  unfold sheetChecked, AddExpenseSheet.handleSubmit, AddExpenseSheet.expenseFormSchema.
  intros Hs. destruct (_ && _) eqn:E; [|assumption].
  apply andb_true_iff in E. destruct E as [E E3].
  apply andb_true_iff in E. destruct E as [E1 E2].
  apply negb_true_iff in E1, E2. rewrite truthy_length in E3.
  unfold AddExpenseSheet.onSubmit. simpl transactions.
  destruct (AddExpenseSheet.editingId state) as [id|]; simpl.
  - rewrite List.Forall_forall in Hs. apply List.Forall_forall.
    intros u Hu. apply in_map_iff in Hu. destruct Hu as (u0 & <- & Hu0).
    destruct (String.eqb (Transaction.id u0) id); [|now apply Hs].
    simpl. auto.
  - apply Forall_app. split; [assumption|]. repeat constructor; assumption.
Qed.

End WithHost.
Import Sample Forms.

Lemma randomColor_passes_schema_witness :
  CreateCategoryDialog.categoryFormSchema
    (CreateCategoryDialog.mkCategoryFormValues "Coffee" (randomColor 255)) = true.
Proof. apply randomColor_passes_schema; [lia | discriminate]. Defined.

(** The category Food of the sample has a name and the colour #ff6b6b. *)
Lemma withLunch_wellStyled : wellStyled withLunch.
Proof. repeat constructor. Defined.


Lemma voice_keeps_distinctNames_witness :
  @distinctNames kolkata (@VoiceRecorder.openSheet kolkata clock2 255 coffee withLunch).
Proof.
  apply (@voice_keeps_distinctNames kolkata).
  constructor; [intros H; inversion H | constructor].
Defined.

Lemma voice_keeps_wellStyled_witness :
  wellStyled (@VoiceRecorder.openSheet kolkata clock2 255 coffee withLunch).
Proof.
  apply (@voice_keeps_wellStyled kolkata); [lia | exact withLunch_wellStyled].
Defined.

(** The stored lunch is edited into a dinner of 40. *)
Lemma edit_then_submit_witness :
  Forall2 (fun u u' =>
             (Transaction.id u = Transaction.id storedLunch ->
                Transaction.amount u' = AddExpenseSheet.amount dinner
                /\ Transaction.categoryId u' = AddExpenseSheet.categoryId dinner
                /\ Transaction.date u'
                   = @format_yyyy_MM_dd kolkata (AddExpenseSheet.date dinner)
                /\ Transaction.notes u'
                   = default (Transaction.notes u) (AddExpenseSheet.notes dinner)
                /\ Transaction.id u' = Transaction.id u
                /\ Transaction.year u' = Transaction.year u
                /\ Transaction.month u' = Transaction.month u
                /\ Transaction.createdAt u' = Transaction.createdAt u)
             /\ (Transaction.id u <> Transaction.id storedLunch -> u' = u))
          (transactions withLunch)
          (transactions
             (@AddExpenseSheet.onSubmit kolkata clock1 dinner
                (TransactionActions.edit storedLunch withLunch)))
  /\ categories
       (@AddExpenseSheet.onSubmit kolkata clock1 dinner
          (TransactionActions.edit storedLunch withLunch))
     = categories withLunch
  /\ addExpenseSheetOpen
       (@AddExpenseSheet.onSubmit kolkata clock1 dinner
          (TransactionActions.edit storedLunch withLunch))
     = false
  /\ editingTransaction
       (@AddExpenseSheet.onSubmit kolkata clock1 dinner
          (TransactionActions.edit storedLunch withLunch))
     = None.
Proof.
  apply (@edit_then_submit kolkata clock1 storedLunch dinner withLunch).
  reflexivity.
Defined.

(** The stored lunch of 25.50 passes what the schema of the sheet asks. *)
Lemma sheet_keeps_sheetChecked_witness :
  sheetChecked (@AddExpenseSheet.handleSubmit kolkata clock1 dinner withLunch).
Proof.
  apply (@sheet_keeps_sheetChecked kolkata).
  constructor; [repeat split; vm_compute; reflexivity|constructor].
Defined.

End ComponentsMore.
Module FormatMore.
Import JS DateFns Store Notions Invariants CalendarProps TextProps.

Lemma digitVal_inj (c c' : ascii) :
  isDigit c = true -> isDigit c' = true -> digitVal c = digitVal c' -> c = c'.
Proof.
  unfold digitVal. intros _ _ H.
  rewrite <- (ascii_nat_embedding c), <- (ascii_nat_embedding c'). f_equal. lia.
Qed.

Lemma digitsFrom_inj (s s' : string) (acc acc' n : Z) :
  String.length s = String.length s' -> 0 <= acc -> 0 <= acc' ->
  digitsFrom acc s = Some n -> digitsFrom acc' s' = Some n ->
  acc = acc' /\ s = s'.
Proof.
  revert s' acc acc'. induction s as [|c r IH]; intros [|c' r'] acc acc' Hl Ha Ha' H H';
    simpl in Hl; try discriminate.
  - simpl in H, H'. split; [congruence|reflexivity].
  - simpl in H, H'.
    destruct (isDigit c) eqn:Ec; [|discriminate].
    destruct (isDigit c') eqn:Ec'; [|discriminate].
    pose proof (digitVal_range c Ec) as Hv.
    pose proof (digitVal_range c' Ec') as Hv'.
    destruct (IH r' (10 * acc + digitVal c) (10 * acc' + digitVal c')
                 ltac:(lia) ltac:(lia) ltac:(lia) H H') as [E ->].
    assert (acc = acc' /\ digitVal c = digitVal c') as [-> Hd] by lia.
    split; [reflexivity|]. f_equal. now apply digitVal_inj.
Qed.

Lemma digits_inj (s s' : string) (n : Z) :
  String.length s = String.length s' ->
  digits s = Some n -> digits s' = Some n -> s = s'.
Proof.
  intros Hl H H'. unfold digits in H, H'.
  destruct s as [|c r], s' as [|c' r']; try discriminate.
  now apply (digitsFrom_inj _ _ 0 0 n Hl).
Qed.

Lemma padded4 (n : Z) : 0 <= n <= 9999 -> paddedReadsBack 4 n = true.
Proof.
  intros H.
  assert (Hall : forallb (paddedReadsBack 4) (map Z.of_nat (seq 0 (Z.to_nat 10000))) = true)
    by (vm_compute; reflexivity).
  rewrite forallb_forall in Hall. apply Hall.
  apply in_map_iff. exists (Z.to_nat n). split; [lia|]. apply in_seq. lia.
Qed.

Lemma padded2 (n : Z) : 0 <= n <= 99 -> paddedReadsBack 2 n = true.
Proof.
  intros H.
  assert (Hall : forallb (paddedReadsBack 2) (map Z.of_nat (seq 0 (Z.to_nat 100))) = true)
    by (vm_compute; reflexivity).
  rewrite forallb_forall in Hall. apply Hall.
  apply in_map_iff. exists (Z.to_nat n). split; [lia|]. apply in_seq. lia.
Qed.

Lemma paddedReadsBack_spec (w : nat) (n : Z) :
  paddedReadsBack w n = true ->
  String.length (padStart w n) = w /\ digits (padStart w n) = Some n.
Proof.
  unfold paddedReadsBack. intros H. apply andb_true_iff in H. destruct H as [H1 H2].
  apply Nat.eqb_eq in H1. split; [assumption|].
  destruct (digits (padStart w n)) as [k|]; [|discriminate].
  apply Z.eqb_eq in H2. now subst.
Qed.

Lemma padStart4 (y : Z) :
  0 <= y <= 9999 -> String.length (padStart 4 y) = 4%nat /\ digits (padStart 4 y) = Some y.
Proof. intros H. apply paddedReadsBack_spec. now apply padded4. Qed.

Lemma padStart2 (m : Z) :
  0 <= m <= 99 -> String.length (padStart 2 m) = 2%nat /\ digits (padStart 2 m) = Some m.
Proof. intros H. apply paddedReadsBack_spec. now apply padded2. Qed.

(** A string of four digits is the padded form of the number it reads as. *)
Lemma four_digits (s : string) (n : Z) :
  String.length s = 4%nat -> digits s = Some n -> 0 <= n <= 9999 /\ padStart 4 n = s.
Proof.
  intros Hl Hd.
  assert (Hn : 0 <= n <= 9999).
  { apply digits_bound in Hd. rewrite Hl in Hd.
    change (10 ^ Z.of_nat 4) with 10000 in Hd. lia. }
  split; [assumption|].
  destruct (padStart4 n Hn) as [H1 H2].
  apply (digits_inj _ _ n); congruence.
Qed.

Lemma two_digits (s : string) (n : Z) :
  String.length s = 2%nat -> digits s = Some n -> 0 <= n <= 99 /\ padStart 2 n = s.
Proof.
  intros Hl Hd.
  assert (Hn : 0 <= n <= 99).
  { apply digits_bound in Hd. rewrite Hl in Hd.
    change (10 ^ Z.of_nat 2) with 100 in Hd. lia. }
  split; [assumption|].
  destruct (padStart2 n Hn) as [H1 H2].
  apply (digits_inj _ _ n); congruence.
Qed.

Lemma substring_split (n a b : nat) (s : string) :
  String.substring n (a + b) s
  = String.substring n a s +:+ String.substring (n + a) b s.
Proof.
  revert s a. induction n as [|n IH]; intros s a.
  - revert s. induction a as [|a IHa]; intros s.
    + simpl. now destruct b, s.
    + destruct s as [|c r]; simpl.
      * now destruct b.
      * now rewrite IHa.
  - destruct s as [|c r]; simpl.
    + now destruct a, b.
    + apply IH.
Qed.

Lemma substring_app_l (a b : string) :
  String.substring 0 (String.length a) (a +:+ b) = a.
Proof.
  induction a as [|c a IH]; simpl; [now destruct b|]. now rewrite IH.
Qed.

Lemma substring_whole (a : string) : String.substring 0 (String.length a) a = a.
Proof. induction a as [|c a IH]; simpl; [reflexivity|]. now rewrite IH. Qed.

Lemma substring_app_r (a b : string) (n m : nat) :
  String.substring (String.length a + n) m (a +:+ b) = String.substring n m b.
Proof. induction a as [|c a IH]; simpl; [reflexivity|exact IH]. Qed.

Lemma append_inj (a a' b b' : string) :
  String.length a = String.length a' -> a +:+ b = a' +:+ b' -> a = a' /\ b = b'.
Proof.
  revert a'. induction a as [|c a IH]; intros [|c' a'] Hl H; simpl in *;
    try discriminate; [now split|].
  inversion H. destruct (IH a' ltac:(lia) ltac:(assumption)) as [-> ->]. now split.
Qed.

(** The date that [format] writes reads back as its year, month and day. *)
Lemma splitYMD_written (y m d : Z) :
  1 <= y <= 9999 -> 0 <= m < 12 -> 1 <= d <= 31 ->
  splitYMD (padStart 4 (yearOfEra y) +:+ "-" +:+ padStart 2 (m + 1)
            +:+ "-" +:+ padStart 2 d)
  = Some (y, m + 1, d).
Proof.
  intros Hy Hm Hd. unfold yearOfEra.
  destruct (Z.ltb_spec 0 y); [|lia].
  destruct (padStart4 y ltac:(lia)) as [Ly Dy].
  destruct (padStart2 (m + 1) ltac:(lia)) as [Lm Dm].
  destruct (padStart2 d ltac:(lia)) as [Ld Dd].
  set (Y := padStart 4 y) in *.
  set (M := padStart 2 (m + 1)) in *.
  set (D := padStart 2 d) in *.
  unfold splitYMD.
  assert (Hlen : String.length (Y +:+ "-" +:+ M +:+ "-" +:+ D) = 10%nat).
  { rewrite !ComponentsMore.length_append, Ly, Lm, Ld. reflexivity. }
  assert (H0 : String.substring 0 4 (Y +:+ "-" +:+ M +:+ "-" +:+ D) = Y).
  { rewrite <- Ly at 1. apply substring_app_l. }
  assert (H4 : String.substring 4 1 (Y +:+ "-" +:+ M +:+ "-" +:+ D) = "-"%string).
  { change 4%nat with (4 + 0)%nat. rewrite <- Ly at 1. rewrite substring_app_r.
    apply (substring_app_l "-"). }
  assert (H5 : String.substring 5 2 (Y +:+ "-" +:+ M +:+ "-" +:+ D) = M).
  { change 5%nat with (4 + 1)%nat. rewrite <- Ly at 1. rewrite substring_app_r.
    rewrite (substring_app_r "-" _ 0 2). rewrite <- Lm at 1. apply substring_app_l. }
  assert (H7 : String.substring 7 1 (Y +:+ "-" +:+ M +:+ "-" +:+ D) = "-"%string).
  { change 7%nat with (4 + 3)%nat. rewrite <- Ly at 1. rewrite substring_app_r.
    rewrite (substring_app_r "-" _ 2 1). change 2%nat with (2 + 0)%nat at 1.
    rewrite <- Lm at 1. rewrite substring_app_r. apply (substring_app_l "-"). }
  assert (H8 : String.substring 8 2 (Y +:+ "-" +:+ M +:+ "-" +:+ D) = D).
  { change 8%nat with (4 + 4)%nat. rewrite <- Ly at 1. rewrite substring_app_r.
    rewrite (substring_app_r "-" _ 3 2). change 3%nat with (2 + 1)%nat at 1.
    rewrite <- Lm at 1. rewrite substring_app_r.
    rewrite (substring_app_r "-" _ 0 2). rewrite <- Ld at 1.
    apply substring_whole. }
  rewrite Hlen, H0, H4, H5, H7, H8, Dy, Dm, Dd. reflexivity.
Qed.

Section WithHost.
Context {host : Host}.

Lemma bucket_of_calendarDate (off : Z) (clk : Clock) (transaction : NewTransaction) :
  fixedOffset off -> 0 <= off < msPerDay ->
  calendarDate (nt_date transaction) ->
  bucketConsistent (newTxn clk transaction)
  /\ exists y m d, splitYMD (nt_date transaction) = Some (y, m, d)
                   /\ Transaction.year (newTxn clk transaction) = Some y
                   /\ Transaction.month (newTxn clk transaction) = Some m.
Proof.
  intros Hoff Ho Hc. unfold calendarDate in Hc.
  destruct (splitYMD (nt_date transaction)) as [[[y m] d]|] eqn:Hs; [|contradiction].
  destruct Hc as [Hm Hd].
  set (s := nt_date transaction) in *.
  pose proof Hs as Hsplit.
  unfold splitYMD in Hs.
  destruct ((String.length s =? 10)%nat && String.eqb (String.substring 4 1 s) "-"
            && String.eqb (String.substring 7 1 s) "-") eqn:Eshape; [|discriminate].
  apply andb_true_iff in Eshape. destruct Eshape as [Eshape E7].
  apply andb_true_iff in Eshape. destruct Eshape as [El E4].
  apply Nat.eqb_eq in El. apply String.eqb_eq in E4.
  destruct (digits (String.substring 0 4 s)) as [y'|] eqn:Dy; [|discriminate].
  destruct (digits (String.substring 5 2 s)) as [m'|] eqn:Dm; [|discriminate].
  destruct (digits (String.substring 8 2 s)) as [d'|] eqn:Dd; [|discriminate].
  inversion Hs; subst y' m' d'.
  destruct (four_digits _ _ (substring_length 0 4 s ltac:(lia)) Dy) as [Hy Py].
  destruct (two_digits _ _ (substring_length 5 2 s ltac:(lia)) Dm) as [_ Pm].
  assert (Htruthy : truthy s = true) by (destruct s; [discriminate|reflexivity]).
  pose proof (PageProps.newDate_calendar off s y m d Hoff Ho Hsplit Hm Hd) as Hnew.
  assert (Hyear : Transaction.year (newTxn clk transaction) = Some y).
  { unfold newTxn, dateOrNow. cbn [Transaction.year]. fold s.
    rewrite Htruthy. unfold getFullYear. now rewrite Hnew. }
  assert (Hmonth : Transaction.month (newTxn clk transaction) = Some m).
  { unfold newTxn, dateOrNow. cbn [Transaction.month]. fold s.
    rewrite Htruthy. unfold getMonth. rewrite Hnew. simpl. f_equal. lia. }
  split; [|exists y, m, d; auto].
  unfold bucketConsistent, yearMonth. rewrite Hyear, Hmonth. f_equal.
  assert (Hdate : Transaction.date (newTxn clk transaction) = s).
  { unfold newTxn. cbn [Transaction.date]. fold s. now rewrite Htruthy. }
  rewrite Hdate, Py, Pm.
  change 7%nat with (4 + 3)%nat. rewrite substring_split.
  change 3%nat with (1 + 2)%nat. rewrite (substring_split 4 1 2). now rewrite E4.
Qed.

(** X26.  On a host at a fixed offset at or east of UTC, a transaction added
    with a calendar date written YYYY-MM-DD gets the year and the month
    written in that date, and its bucket is the first seven characters of the
    stored date. *)
Theorem newTxn_bucket_east_of_utc (off : Z) (clk : Clock)
    (transaction : NewTransaction) :
  fixedOffset off -> 0 <= off < msPerDay ->
  calendarDate (nt_date transaction) ->
  bucketConsistent (newTxn clk transaction)
  /\ exists y m d, splitYMD (nt_date transaction) = Some (y, m, d)
                   /\ Transaction.year (newTxn clk transaction) = Some y
                   /\ Transaction.month (newTxn clk transaction) = Some m.
Proof. apply bucket_of_calendarDate. Qed.

(** X27.  On a host at a fixed offset at or east of UTC, an expense added
    through the sheet with a picked date of the years 1 to 9999 is stored with
    the picked date written yyyy-MM-dd and with the year and the month of the
    picked date: its bucket agrees with its date. *)
Theorem sheet_adds_picked_month (off : Z) (clk : Clock)
    (data : AddExpenseSheet.ExpenseFormValues) (state : AppState) :
  fixedOffset off -> 0 <= off < msPerDay ->
  let picked := fieldsOf (localTime (AddExpenseSheet.date data)) in
  1 <= dt_year picked <= 9999 ->
  AddExpenseSheet.editingId state = None ->
  let t := newTxn clk (AddExpenseSheet.asNew data) in
  transactions (AddExpenseSheet.onSubmit clk data state) = transactions state ++ [t]
  /\ Transaction.date t = format_yyyy_MM_dd (AddExpenseSheet.date data)
  /\ Transaction.year t = Some (dt_year picked)
  /\ Transaction.month t = Some (dt_month picked + 1)
  /\ bucketConsistent t.
Proof.
  intros Hoff Ho picked Hy Hedit. cbv zeta.
  destruct (fieldsOf_wellFormed (localTime (AddExpenseSheet.date data)))
    as [[[Hm Hd] Hms] _].
  fold picked in Hm, Hd, Hms.
  pose proof (daysInMonth_le_31 (dt_year picked) (dt_month picked)) as H31.
  pose proof (splitYMD_written (dt_year picked) (dt_month picked) (dt_day picked)
                Hy Hm ltac:(lia)) as Hs.
  assert (Hfmt : nt_date (AddExpenseSheet.asNew data)
                 = padStart 4 (yearOfEra (dt_year picked)) +:+ "-"
                   +:+ padStart 2 (dt_month picked + 1) +:+ "-"
                   +:+ padStart 2 (dt_day picked)) by reflexivity.
  assert (Hc : calendarDate (nt_date (AddExpenseSheet.asNew data))).
  { unfold calendarDate. rewrite Hfmt, Hs.
    replace (dt_month picked + 1 - 1) with (dt_month picked) by lia. lia. }
  destruct (bucket_of_calendarDate off clk (AddExpenseSheet.asNew data) Hoff Ho Hc)
    as (Hb & y & m & d & Hs' & Hyear & Hmonth).
  rewrite Hfmt, Hs in Hs'. inversion Hs'; subst y m d.
  split; [|split; [|split; [|split]]]; try assumption.
  - unfold AddExpenseSheet.onSubmit. rewrite Hedit. reflexivity.
  - unfold newTxn. cbn [Transaction.date].
    destruct (truthy (nt_date (AddExpenseSheet.asNew data))) eqn:Et; [reflexivity|].
    exfalso. destruct (nt_date (AddExpenseSheet.asNew data)) eqn:En; [|discriminate Et].
    rewrite <- Hfmt in Hs. unfold splitYMD in Hs. simpl in Hs. discriminate Hs.
Qed.

Lemma format_yyyy_MM_same (a b : Date) :
  fourDigitYear a -> fourDigitYear b ->
  (exists k, AskPage.format_yyyy_MM a = Some k /\ AskPage.format_yyyy_MM b = Some k)
  <-> isSameMonth a b = true.
Proof.
  unfold fourDigitYear, AskPage.format_yyyy_MM, isSameMonth.
  destruct a as [|ta]; [simpl; tauto|]. destruct b as [|tb]; [simpl; tauto|].
  rewrite !MonthProps.localFields_valid.
  destruct (fieldsOf_wellFormed (localTime ta)) as [[[Hmx _] _] _].
  destruct (fieldsOf_wellFormed (localTime tb)) as [[[Hmz _] _] _].
  set (x := fieldsOf (localTime ta)) in *. set (z := fieldsOf (localTime tb)) in *.
  intros Hx Hz. unfold yearOfEra.
  destruct (Z.ltb_spec 0 (dt_year x)); [|lia].
  destruct (Z.ltb_spec 0 (dt_year z)); [|lia].
  rewrite andb_true_iff, !Z.eqb_eq. split.
  - intros (k & Hk & Hk'). rewrite <- Hk' in Hk. inversion Hk as [E].
    destruct (padStart4 (dt_year x) ltac:(lia)) as [Lx Dx].
    destruct (padStart4 (dt_year z) ltac:(lia)) as [Lz Dz].
    destruct (padStart2 (dt_month x + 1) ltac:(lia)) as [Lmx Dmx].
    destruct (padStart2 (dt_month z + 1) ltac:(lia)) as [Lmz Dmz].
    apply append_inj in E; [|congruence]. destruct E as [E1 E2].
    apply (append_inj "-" "-") in E2; [|reflexivity]. destruct E2 as [_ E2].
    rewrite E1 in Dx. rewrite E2 in Dmx. split; [congruence|].
    assert (dt_month x + 1 = dt_month z + 1) by congruence. lia.
  - intros [-> ->]. eauto.
Qed.

Lemma format_yyyy_MM_None (d : Date) :
  AskPage.format_yyyy_MM d = None <-> d = InvalidDate.
Proof.
  unfold AskPage.format_yyyy_MM. destruct d as [|t]; [tauto|].
  rewrite MonthProps.localFields_valid. split; discriminate.
Qed.

Lemma filterMonth_fails (ym : string) (transactions : list Transaction.t) :
  AskPage.filterMonth ym transactions = None
  <-> exists t, In t transactions /\ newDate (Transaction.date t) = InvalidDate.
Proof.
  induction transactions as [|t r IH]; simpl.
  - split; [discriminate|intros [t [[] _]]].
  - pose proof (format_yyyy_MM_None (newDate (Transaction.date t))) as Hn.
    destruct (AskPage.format_yyyy_MM (newDate (Transaction.date t))) as [k|].
    + assert (Hv : newDate (Transaction.date t) <> InvalidDate).
      { intros E. apply Hn in E. discriminate E. }
      destruct (AskPage.filterMonth ym r) as [kept|].
      * split; [discriminate|]. intros [t' [[<-|Hin] Ht']]; [congruence|].
        destruct IH as [_ IH]. discriminate IH. eauto.
      * split; [|reflexivity]. intros _.
        destruct IH as [IH _]. destruct (IH eq_refl) as [t' [Hin Ht']].
        exists t'. auto.
    + split; [|reflexivity]. intros _. exists t. split; [now left|now apply Hn].
Qed.

(** X28.  Building the transactions of a question fails with an exception
    exactly when the month shown is invalid or some stored transaction, of any
    month, has a date that does not parse. *)
Theorem monthTxns_fails (transactions : list Transaction.t)
    (categories : list Category.t) (currentMonth : Date) :
  AskPage.monthTxns transactions categories currentMonth = None
  <-> currentMonth = InvalidDate
      \/ exists t, In t transactions /\ newDate (Transaction.date t) = InvalidDate.
Proof.
  unfold AskPage.monthTxns.
  pose proof (format_yyyy_MM_None currentMonth) as Hn.
  destruct (AskPage.format_yyyy_MM currentMonth) as [ym|].
  - pose proof (filterMonth_fails ym transactions) as H.
    destruct (AskPage.filterMonth ym transactions) as [kept|].
    + split; [discriminate|]. intros [Hc|Hex].
      * apply Hn in Hc. discriminate Hc.
      * apply H in Hex. discriminate.
    + split; [|reflexivity]. intros _. right. now apply H.
  - split; [|reflexivity]. intros _. left. now apply Hn.
Qed.

Lemma filterMonth_selects (ym : string) (currentMonth : Date)
    (transactions : list Transaction.t) :
  fourDigitYear currentMonth -> AskPage.format_yyyy_MM currentMonth = Some ym ->
  Forall (fun t => fourDigitYear (newDate (Transaction.date t))) transactions ->
  AskPage.filterMonth ym transactions
  = Some (List.filter (fun t => isSameMonth (newDate (Transaction.date t)) currentMonth)
                      transactions).
Proof.
  intros Hc Hym Hall. induction Hall as [|t r Ht Hall IH]; [reflexivity|].
  simpl. rewrite IH.
  destruct (AskPage.format_yyyy_MM (newDate (Transaction.date t))) as [k|] eqn:Ek.
  - f_equal.
    destruct (isSameMonth (newDate (Transaction.date t)) currentMonth) eqn:Es.
    + apply (format_yyyy_MM_same _ _ Ht Hc) in Es. destruct Es as (k' & Hk1 & Hk2).
      assert (k = ym) by congruence. subst. now rewrite String.eqb_refl.
    + destruct (String.eqb k ym) eqn:Ekym; [|reflexivity].
      apply String.eqb_eq in Ekym. subst k.
      assert (Hs : isSameMonth (newDate (Transaction.date t)) currentMonth = true)
        by (apply (format_yyyy_MM_same _ _ Ht Hc); eauto).
      congruence.
  - apply format_yyyy_MM_None in Ek. unfold fourDigitYear in Ht.
    rewrite Ek in Ht. contradiction.
Qed.

(** X29.  When the month shown and every stored date are in the years 1 to
    9999, a question is sent with the transactions that the transactions page
    filters for the month, in the order of the store. *)
Theorem monthTxns_of_month_list (transactions : list Transaction.t)
    (categories : list Category.t) (currentMonth : Date) :
  fourDigitYear currentMonth ->
  Forall (fun t => fourDigitYear (newDate (Transaction.date t))) transactions ->
  exists ym,
    AskPage.format_yyyy_MM currentMonth = Some ym
    /\ AskPage.monthTxns transactions categories currentMonth
       = Some (ym,
               map (AskPage.toMonthTxn categories)
                   (List.filter
                      (fun t => isSameMonth (newDate (Transaction.date t)) currentMonth)
                      transactions)).
Proof.
  intros Hc Hall. unfold AskPage.monthTxns.
  destruct (AskPage.format_yyyy_MM currentMonth) as [ym|] eqn:E.
  - exists ym. split; [reflexivity|].
    now rewrite (filterMonth_selects ym currentMonth transactions Hc E Hall).
  - apply format_yyyy_MM_None in E. unfold fourDigitYear in Hc.
    rewrite E in Hc. contradiction.
Qed.

End WithHost.

Import Sample Forms.

(** The tea of 16 January, added in [kolkata]. *)
Lemma newTxn_bucket_east_of_utc_witness :
  bucketConsistent (@newTxn kolkata clock1 tea)
  /\ exists y m d, splitYMD (nt_date tea) = Some (y, m, d)
                   /\ Transaction.year (@newTxn kolkata clock1 tea) = Some y
                   /\ Transaction.month (@newTxn kolkata clock1 tea) = Some m.
Proof.
  apply (@newTxn_bucket_east_of_utc kolkata 19800000 clock1 tea).
  - exact MonthProps.kolkata_fixedOffset.
  - vm_compute. split; discriminate || reflexivity.
  - vm_compute. repeat split; discriminate.
Defined.

(** The dinner, picked for 15 January 2024 in [kolkata]. *)
Lemma sheet_adds_picked_month_witness :
  transactions (@AddExpenseSheet.onSubmit kolkata clock1 dinner withLunch)
  = transactions withLunch ++ [@newTxn kolkata clock1 (@AddExpenseSheet.asNew kolkata dinner)]
  /\ Transaction.date (@newTxn kolkata clock1 (@AddExpenseSheet.asNew kolkata dinner))
     = @format_yyyy_MM_dd kolkata (AddExpenseSheet.date dinner)
  /\ Transaction.year (@newTxn kolkata clock1 (@AddExpenseSheet.asNew kolkata dinner))
     = Some (dt_year (fieldsOf (@localTime kolkata (AddExpenseSheet.date dinner))))
  /\ Transaction.month (@newTxn kolkata clock1 (@AddExpenseSheet.asNew kolkata dinner))
     = Some (dt_month (fieldsOf (@localTime kolkata (AddExpenseSheet.date dinner))) + 1)
  /\ bucketConsistent (@newTxn kolkata clock1 (@AddExpenseSheet.asNew kolkata dinner)).
Proof.
  apply (@sheet_adds_picked_month kolkata 19800000 clock1 dinner withLunch).
  - exact MonthProps.kolkata_fixedOffset.
  - vm_compute. split; discriminate || reflexivity.
  - vm_compute. split; discriminate.
  - reflexivity.
Defined.

(** The month shown and the three expenses of the sample are of 2024. *)
Lemma monthTxns_of_month_list_witness :
  exists ym,
    @AskPage.format_yyyy_MM kolkata january = Some ym
    /\ @AskPage.monthTxns kolkata expenses [foodAndDining] january
       = Some (ym,
               map (AskPage.toMonthTxn [foodAndDining])
                   (List.filter
                      (fun t => @isSameMonth kolkata
                                  (@newDate kolkata (Transaction.date t)) january)
                      expenses)).
Proof.
  apply (@monthTxns_of_month_list kolkata expenses [foodAndDining] january).
  - vm_compute. split; discriminate.
  - repeat constructor; vm_compute; discriminate.
Defined.

End FormatMore.
